(** * CardinalRemote: the process bootstrap of [src/CardinalRemote/main.cpp]

    A shallow embedding of [main]: path resolution, the installation
    report, the search for a unique temporary directory, the construction
    of the plugin context, and teardown.  The collaborators that [main]
    calls but does not define (the [rack::system] file operations, the
    constructors of the engine objects, the UI loop) are taken as a record
    of operations over an abstract world. *)

From Stdlib Require Import ZArith Lia.
From stdpp Require Import gmap strings list.

Local Open Scope Z_scope.

(** ** [std::snprintf(uidBuf, sizeof(uidBuf), "CardinalRemote.%04d", i)] *)

Module Printf.

(** The decimal digits of [n], most significant first, on exactly [w]
    positions (the value is taken modulo [10^w]). *)
Fixpoint digits_w (w : nat) (n : Z) : list Z :=
  match w with
  | O => []
  | S w' => digits_w w' (n / 10) ++ [n mod 10]
  end.

(** Leading zeros are dropped as long as more than [keep] positions
    remain: the minimum field width of a zero-padded conversion. *)
Fixpoint strip_zeros (keep : nat) (l : list Z) : list Z :=
  match l with
  | 0 :: l' => if (keep <? length l)%nat then strip_zeros keep l' else l
  | _ => l
  end.

Definition digit_char (d : Z) : Ascii.ascii := Ascii.ascii_of_N (48 + Z.to_N d).

Definition string_of_digits (l : list Z) : string :=
  fold_right (fun d s => String (digit_char d) s) EmptyString l.

(** The conversion [%04d] of a 32-bit [int], which has at most ten
    decimal digits; the sign counts in the field width. *)
Definition fmt_04d (n : Z) : string :=
  if n <? 0
  then "-" +:+ string_of_digits (strip_zeros 3 (digits_w 10 (- n)))
  else string_of_digits (strip_zeros 4 (digits_w 10 n)).

Fixpoint string_take (n : nat) (s : string) : string :=
  match n, s with
  | S n', String c s' => String c (string_take n' s')
  | _, _ => EmptyString
  end.

(** [snprintf] into a buffer of [size] bytes stores at most [size - 1]
    characters before the terminating NUL. *)
Definition snprintf (size : nat) (formatted : string) : string :=
  string_take (size - 1) formatted.

End Printf.

(** [char uidBuf[24]] after the [snprintf] of the loop body. *)
Definition uidBuf_size : nat := 24.

Definition uidBuf (i : Z) : string :=
  Printf.snprintf uidBuf_size ("CardinalRemote." +:+ Printf.fmt_04d i).

(** ** Build configuration

    The preprocessor symbols that select the code of [main]. *)

Inductive Arch := ARCH_MAC | ARCH_WIN | ARCH_LIN.

Record BuildConfig := {
  (** [None] when the symbol is not defined. *)
  CARDINAL_PLUGIN_SOURCE_DIR : option string;
  DISTRHO_OS_SEP_STR : string;
  ARCH : Arch;
  (** Only read when neither [ARCH_MAC] nor [ARCH_WIN] is defined. *)
  CARDINAL_PLUGIN_PREFIX : string;
}.

(** ** Collaborators

    Every function that [main] calls and that is defined elsewhere.  A
    call may change the world and may throw. *)

Inductive exc (A : Type) : Type :=
| Ok (a : A)
| Throw.
Arguments Ok {A} a.
Arguments Throw {A}.

Definition loc := positive.

(** The calls whose result [main] does not look at.  What
    [color::fromHexString] returns goes into [settings::cableColors],
    a global of [rack::settings] that the model does not carry. *)
Inductive Call :=
| color_fromHexString (hex : string)
| system_init | logger_init | random_init | ui_init
| initStaticPlugins | browserInit
| new_CardinalPluginContext
| new_Engine | Engine_setSampleRate (engine : loc) (rate : Z)
| new_HistoryState | new_PatchManager | new_EventState | new_Scene
| new_RackWindow
| Patch_loadTemplate (patch : loc) | RackScroll_reset (scene : loc)
| new_Application | new_Window | Window_setResizable (b : bool)
| Window_setTitle (title : string)
| ScopedGraphicsContext_enter | new_CardinalRemoteUI (templatePath : string)
| ScopedGraphicsContext_leave
| Window_show | Application_exec
| Patch_clear (patch : loc)
| destroyStaticPlugins | settings_destroy | logger_destroy
(** the destructors that run at the closing brace of [main] *)
| delete_CardinalRemoteUI | destroy_Window | destroy_Application
| destroy_CardinalPluginContext.

Record Collaborators (W : Type) := {
  system_join : string -> string -> string;
  system_exists : string -> W -> exc bool * W;
  system_createDirectories : string -> W -> exc bool * W;
  system_getTempDirectory : W -> exc string * W;
  system_removeRecursively : string -> W -> exc Z * W;
  system_getOperatingSystemInfo : W -> exc string * W;
  (** [getSpecialPath(kSpecialPathCommonProgramFiles)] *)
  getSpecialPath_CommonProgramFiles : W -> exc string * W;
  extern : Call -> W -> exc unit * W;
}.
Arguments system_join {W} _ _ _.
Arguments system_exists {W} _ _ _.
Arguments system_createDirectories {W} _ _ _.
Arguments system_getTempDirectory {W} _ _.
Arguments system_removeRecursively {W} _ _ _.
Arguments system_getOperatingSystemInfo {W} _ _.
Arguments getSpecialPath_CommonProgramFiles {W} _ _.
Arguments extern {W} _ _ _.

(** ** Program state *)

(** The two installation warnings that [main] writes with [d_stderr2]:
    "Failed to locate Cardinal plugin bundle." and "System directory ...
    does not exist." *)
Inductive Warning :=
| FailedToLocateBundle
| SystemDirDoesNotExist (dir : string).

(** What the run leaves behind for an observer, most recent first. *)
Inductive Event :=
| EvCall (c : Call)
| EvExists (path : string)
| EvCreateDirectories (path : string)
| EvGetTempDirectory
| EvRemoveRecursively (path : string)
| EvGetOperatingSystemInfo
| EvGetSpecialPath
| EvInfo (line : string) (arg : string)
| EvStderr (w : Warning)
| EvSafeException (msg : string).

(** The objects created with [new]. *)
Inductive Obj :=
| Engine
| HistoryState
| PatchManager (autosavePath templatePath : string)
| EventState (rootWidget : option loc)
| Scene
| RackWindow.

(** [CardinalPluginContext]; a null pointer is [None]. *)
Record Context := {
  bufferSize : Z;
  sampleRate : Z;
  engine : option loc;
  history : option loc;
  patch : option loc;
  event : option loc;
  scene : option loc;
  window : option loc;
}.

(** The globals [rack::asset::systemDir], [userDir] and [bundlePath]. *)
Record Asset := {
  systemDir : string;
  userDir : string;
  bundlePath : string;
}.

Record State (W : Type) := {
  world : W;
  trace : list Event;
  asset : Asset;
  (** the locals [templatePath] and [autosavePath] of [main] *)
  templatePath : string;
  autosavePath : string;
  (** the local [context], which lives at [addr_context] *)
  context : Context;
  (** the pointer kept by [rack::contextSet] *)
  threadContext : option loc;
  heap : gmap loc Obj;
  next_loc : loc;
}.
Arguments world {W} _.
Arguments trace {W} _.
Arguments asset {W} _.
Arguments templatePath {W} _.
Arguments autosavePath {W} _.
Arguments context {W} _.
Arguments threadContext {W} _.
Arguments heap {W} _.
Arguments next_loc {W} _.

(** [&context]: the address of the local variable of [main]. *)
Definition addr_context : loc := 1%positive.

Definition null_context : Context :=
  {| bufferSize := 0; sampleRate := 0; engine := None; history := None;
     patch := None; event := None; scene := None; window := None |}.

(** The state on entry to [main]: default-constructed strings, nothing
    allocated, no context registered. *)
Definition initial_state {W} (w : W) : State W :=
  {| world := w; trace := [];
     asset := {| systemDir := ""; userDir := ""; bundlePath := "" |};
     templatePath := ""; autosavePath := "";
     context := null_context; threadContext := None;
     heap := ∅; next_loc := Pos.succ addr_context |}.

(** [std::string::empty] *)
Definition empty (s : string) : bool :=
  match s with EmptyString => true | String _ _ => false end.

(** How a computation ends. *)
Inductive outcome (S A : Type) : Type :=
| Returns (a : A) (s : S)
| Throws (s : S)        (* an exception is propagating *)
| Undefined (s : S)     (* signed overflow, null dereference *)
| OutOfFuel.            (* the model ran out of loop iterations *)
Arguments Returns {S A} a s.
Arguments Throws {S A} s.
Arguments Undefined {S A} s.
Arguments OutOfFuel {S A}.

(** ** A state monad with exceptions *)

Definition M (W A : Type) : Type := State W -> outcome (State W) A.

Definition ret {W A} (a : A) : M W A := fun s => Returns a s.

Definition bind {W A B} (m : M W A) (f : A -> M W B) : M W B :=
  fun s =>
    match m s with
    | Returns a s' => f a s'
    | Throws s' => Throws s'
    | Undefined s' => Undefined s'
    | OutOfFuel => OutOfFuel
    end.

Declare Scope prog_scope.
Delimit Scope prog_scope with prog.
Notation "x <- m ;; f" := (bind m (fun x => f))
  (at level 100, m at next level, right associativity) : prog_scope.
Notation "m ;; f" := (bind m (fun _ => f))
  (at level 100, right associativity) : prog_scope.
Local Open Scope prog_scope.

Definition get {W} : M W (State W) := fun s => Returns s s.
Definition modify {W} (f : State W -> State W) : M W unit :=
  fun s => Returns tt (f s).
Definition undefined {W A} : M W A := fun s => Undefined s.
Definition out_of_fuel {W A} : M W A := fun _ => OutOfFuel.

Definition set_world {W} (w : W) (s : State W) : State W :=
  {| world := w; trace := trace s; asset := asset s;
     templatePath := templatePath s; autosavePath := autosavePath s;
     context := context s; threadContext := threadContext s;
     heap := heap s; next_loc := next_loc s |}.

Definition add_event {W} (e : Event) (s : State W) : State W :=
  {| world := world s; trace := e :: trace s; asset := asset s;
     templatePath := templatePath s; autosavePath := autosavePath s;
     context := context s; threadContext := threadContext s;
     heap := heap s; next_loc := next_loc s |}.

Definition set_asset {W} (a : Asset) (s : State W) : State W :=
  {| world := world s; trace := trace s; asset := a;
     templatePath := templatePath s; autosavePath := autosavePath s;
     context := context s; threadContext := threadContext s;
     heap := heap s; next_loc := next_loc s |}.

Definition set_templatePath {W} (p : string) (s : State W) : State W :=
  {| world := world s; trace := trace s; asset := asset s;
     templatePath := p; autosavePath := autosavePath s;
     context := context s; threadContext := threadContext s;
     heap := heap s; next_loc := next_loc s |}.

Definition set_autosavePath {W} (p : string) (s : State W) : State W :=
  {| world := world s; trace := trace s; asset := asset s;
     templatePath := templatePath s; autosavePath := p;
     context := context s; threadContext := threadContext s;
     heap := heap s; next_loc := next_loc s |}.

Definition set_context {W} (c : Context) (s : State W) : State W :=
  {| world := world s; trace := trace s; asset := asset s;
     templatePath := templatePath s; autosavePath := autosavePath s;
     context := c; threadContext := threadContext s;
     heap := heap s; next_loc := next_loc s |}.

Definition set_threadContext {W} (c : option loc) (s : State W) : State W :=
  {| world := world s; trace := trace s; asset := asset s;
     templatePath := templatePath s; autosavePath := autosavePath s;
     context := context s; threadContext := c;
     heap := heap s; next_loc := next_loc s |}.

Definition set_heap {W} (h : gmap loc Obj) (n : loc) (s : State W) : State W :=
  {| world := world s; trace := trace s; asset := asset s;
     templatePath := templatePath s; autosavePath := autosavePath s;
     context := context s; threadContext := threadContext s;
     heap := h; next_loc := n |}.

Definition set_systemDir (p : string) (a : Asset) : Asset :=
  {| systemDir := p; userDir := userDir a; bundlePath := bundlePath a |}.
Definition set_userDir (p : string) (a : Asset) : Asset :=
  {| systemDir := systemDir a; userDir := p; bundlePath := bundlePath a |}.
Definition set_bundlePath (p : string) (a : Asset) : Asset :=
  {| systemDir := systemDir a; userDir := userDir a; bundlePath := p |}.

Definition set_bufferSize (v : Z) (c : Context) : Context :=
  {| bufferSize := v; sampleRate := sampleRate c; engine := engine c;
     history := history c; patch := patch c; event := event c;
     scene := scene c; window := window c |}.
Definition set_sampleRate (v : Z) (c : Context) : Context :=
  {| bufferSize := bufferSize c; sampleRate := v; engine := engine c;
     history := history c; patch := patch c; event := event c;
     scene := scene c; window := window c |}.
Definition set_engine (l : loc) (c : Context) : Context :=
  {| bufferSize := bufferSize c; sampleRate := sampleRate c; engine := Some l;
     history := history c; patch := patch c; event := event c;
     scene := scene c; window := window c |}.
Definition set_history (l : loc) (c : Context) : Context :=
  {| bufferSize := bufferSize c; sampleRate := sampleRate c; engine := engine c;
     history := Some l; patch := patch c; event := event c;
     scene := scene c; window := window c |}.
Definition set_patch (l : loc) (c : Context) : Context :=
  {| bufferSize := bufferSize c; sampleRate := sampleRate c; engine := engine c;
     history := history c; patch := Some l; event := event c;
     scene := scene c; window := window c |}.
Definition set_event (l : loc) (c : Context) : Context :=
  {| bufferSize := bufferSize c; sampleRate := sampleRate c; engine := engine c;
     history := history c; patch := patch c; event := Some l;
     scene := scene c; window := window c |}.
Definition set_scene (l : loc) (c : Context) : Context :=
  {| bufferSize := bufferSize c; sampleRate := sampleRate c; engine := engine c;
     history := history c; patch := patch c; event := event c;
     scene := Some l; window := window c |}.
Definition set_window (l : loc) (c : Context) : Context :=
  {| bufferSize := bufferSize c; sampleRate := sampleRate c; engine := engine c;
     history := history c; patch := patch c; event := event c;
     scene := scene c; window := Some l |}.

(** A call to a collaborator: the world moves on, the call is recorded,
    and an exception, if any, starts propagating. *)
Definition invoke {W A} (op : W -> exc A * W) (e : Event) : M W A :=
  fun s =>
    let s' := add_event e (set_world (op (world s)).2 s) in
    match (op (world s)).1 with
    | Ok a => Returns a s'
    | Throw => Throws s'
    end.

Definition log {W} (e : Event) : M W unit := modify (add_event e).

(** Modelled from the spec: the macro [DISTRHO_SAFE_EXCEPTION], which this
    file uses and does not define.  In [try { body }
    DISTRHO_SAFE_EXCEPTION(msg)] all exceptions raised by the body are
    caught and treated as silent failure; what the body did before the
    throw stays done. *)
Definition try_catch {W} (body : M W unit) (msg : string) : M W unit :=
  fun s =>
    match body s with
    | Throws s' => Returns tt (add_event (EvSafeException msg) s')
    | o => o
    end.

(** Modelled from the spec: [rack::contextSet], which this file calls and
    does not define.  It registers the context it is given as the
    process-wide active context, replacing the one registered before. *)
Definition contextSet {W} (c : loc) : M W unit :=
  modify (set_threadContext (Some c)).

(** Dereferencing a pointer; a null pointer has no defined behaviour. *)
Definition deref {W} (p : option loc) : M W loc :=
  match p with
  | Some l => ret l
  | None => undefined
  end.

(** [INT_MAX] of the 32-bit [int] counter. *)
Definition INT_MAX : Z := 2147483647.

(** ** The program *)

(** Which arm of the conditional of lines 106-129 ran. *)
Inductive Branch := SourceDirBranch | PlatformDefaultBranch.

Section Program.
Context {W : Type} (env : Collaborators W) (cfg : BuildConfig).

Definition call (c : Call) : M W unit := invoke (extern env c) (EvCall c).
Definition exists_ (p : string) : M W bool :=
  invoke (system_exists env p) (EvExists p).
Definition createDirectories (p : string) : M W bool :=
  invoke (system_createDirectories env p) (EvCreateDirectories p).
Definition getTempDirectory : M W string :=
  invoke (system_getTempDirectory env) EvGetTempDirectory.
Definition removeRecursively (p : string) : M W Z :=
  invoke (system_removeRecursively env p) (EvRemoveRecursively p).
Definition getOperatingSystemInfo : M W string :=
  invoke (system_getOperatingSystemInfo env) EvGetOperatingSystemInfo.
Definition getSpecialPath : M W string :=
  invoke (getSpecialPath_CommonProgramFiles env) EvGetSpecialPath.
Definition join : string -> string -> string := system_join env.

Definition INFO (line arg : string) : M W unit := log (EvInfo line arg).
Definition d_stderr2 (w : Warning) : M W unit := log (EvStderr w).

Definition assign_asset (f : Asset -> Asset) : M W unit :=
  modify (fun s => set_asset (f (asset s)) s).
Definition assign_context (f : Context -> Context) : M W unit :=
  modify (fun s => set_context (f (context s)) s).

(** [new T]: the constructor runs, then the object gets a fresh address. *)
Definition new (ctor : Call) (o : Obj) : M W loc :=
  call ctor ;;
  s <- get ;;
  modify (set_heap (<[next_loc s := o]> (heap s)) (Pos.succ (next_loc s))) ;;
  ret (next_loc s).

(** Assignment to a field of the object a pointer refers to. *)
Definition store (l : loc) (f : Obj -> option Obj) : M W unit :=
  s <- get ;;
  match heap s !! l ≫= f with
  | Some o => modify (set_heap (<[l := o]> (heap s)) (next_loc s))
  | None => undefined
  end.

Definition write_autosavePath (v : string) (o : Obj) : option Obj :=
  match o with PatchManager _ t => Some (PatchManager v t) | _ => None end.
Definition write_templatePath (v : string) (o : Obj) : option Obj :=
  match o with PatchManager a _ => Some (PatchManager a v) | _ => None end.
Definition write_rootWidget (v : option loc) (o : Obj) : option Obj :=
  match o with EventState _ => Some (EventState v) | _ => None end.

(** *** Lines 113-129: the install target prefix as system dir *)
Definition platform_default : M W unit :=
  match ARCH cfg with
  | ARCH_MAC =>
      assign_asset (set_systemDir "/Library/Application Support/Cardinal")
  | ARCH_WIN =>
      commonprogfiles <- getSpecialPath ;;
      if negb (empty commonprogfiles)
      then assign_asset (set_systemDir (join commonprogfiles "Cardinal"))
      else ret tt
  | ARCH_LIN =>
      assign_asset
        (set_systemDir (CARDINAL_PLUGIN_PREFIX cfg +:+ "/share/cardinal"))
  end ;;
  s <- get ;;
  if negb (empty (systemDir (asset s)))
  then
    assign_asset (set_bundlePath (join (systemDir (asset s)) "PluginManifests")) ;;
    modify (set_templatePath (join (systemDir (asset s)) "template.vcv"))
  else ret tt.

(** *** Lines 101-131: path resolution

    The value returned names the arm that ran; [main] has no use for
    it. *)
Definition resolve_paths : M W Branch :=
  modify (set_templatePath "") ;;
  branch <-
    match CARDINAL_PLUGIN_SOURCE_DIR cfg with
    | Some source_dir =>
        assign_asset
          (set_systemDir (source_dir +:+ DISTRHO_OS_SEP_STR cfg +:+ "Rack")) ;;
        s <- get ;;
        has_res <- exists_ (join (systemDir (asset s)) "res") ;;
        if has_res
        then
          modify (set_templatePath
                    (source_dir +:+ DISTRHO_OS_SEP_STR cfg +:+ "template.vcv")) ;;
          ret SourceDirBranch
        else
          platform_default ;;
          ret PlatformDefaultBranch
    | None =>
        platform_default ;;
        ret PlatformDefaultBranch
    end ;;
  s <- get ;;
  assign_asset (set_userDir (systemDir (asset s))) ;;
  ret branch.

(** *** Lines 133-139: log environment *)
Definition log_environment : M W unit :=
  INFO "%s %s version %s" "" ;;
  info <- getOperatingSystemInfo ;;
  INFO "%s" info ;;
  s <- get ;;
  INFO "System directory: %s" (systemDir (asset s)) ;;
  INFO "User directory: %s" (userDir (asset s)) ;;
  INFO "Template patch: %s" (templatePath s).

(** *** Lines 141-151: report to user if something is wrong with the
    installation *)
Definition report_installation : M W unit :=
  s <- get ;;
  if empty (systemDir (asset s))
  then
    d_stderr2 FailedToLocateBundle
  else
    found <- exists_ (systemDir (asset s)) ;;
    if negb found
    then d_stderr2 (SystemDirDoesNotExist (systemDir (asset s)))
    else ret tt.

(** *** Lines 159-178: create unique temporary path for this instance *)
Fixpoint search (fuel : nat) (tmp : string) (i : Z) : M W unit :=
  match fuel with
  | O => out_of_fuel
  | S fuel' =>
      let trypath := join tmp (uidBuf i) in
      found <- exists_ trypath ;;
      if negb found
      then
        created <- createDirectories trypath ;;
        if created then modify (set_autosavePath trypath) else ret tt
      else
        if i =? INT_MAX then undefined else search fuel' tmp (i + 1)
  end.

Definition create_autosavePath (fuel : nat) : M W unit :=
  modify (set_autosavePath "") ;;
  try_catch
    (tmp <- getTempDirectory ;;
     search fuel tmp 1)
    "create unique temporary path".

(** *** Lines 180-200: the plugin context *)
Definition construct_context : M W unit :=
  call new_CardinalPluginContext ;;
  assign_context (fun _ => null_context) ;;
  contextSet addr_context ;;
  assign_context (set_bufferSize 512) ;;
  assign_context (set_sampleRate 48000) ;;

  e <- new new_Engine Engine ;;
  assign_context (set_engine e) ;;
  s <- get ;;
  e <- deref (engine (context s)) ;;
  call (Engine_setSampleRate e (sampleRate (context s))) ;;

  h <- new new_HistoryState HistoryState ;;
  assign_context (set_history h) ;;
  p <- new new_PatchManager (PatchManager EmptyString EmptyString) ;;
  assign_context (set_patch p) ;;
  s <- get ;;
  p <- deref (patch (context s)) ;;
  store p (write_autosavePath (autosavePath s)) ;;
  s <- get ;;
  p <- deref (patch (context s)) ;;
  store p (write_templatePath (templatePath s)) ;;

  ev <- new new_EventState (EventState None) ;;
  assign_context (set_event ev) ;;
  sc <- new new_Scene Scene ;;
  assign_context (set_scene sc) ;;
  s <- get ;;
  ev <- deref (event (context s)) ;;
  store ev (write_rootWidget (scene (context s))) ;;
  w <- new new_RackWindow RackWindow ;;
  assign_context (set_window w) ;;

  s <- get ;;
  p <- deref (patch (context s)) ;;
  call (Patch_loadTemplate p) ;;
  s <- get ;;
  sc <- deref (scene (context s)) ;;
  call (RackScroll_reset sc).

(** *** Lines 202-214: the window and the UI loop *)
Definition run_ui : M W unit :=
  call new_Application ;;
  call new_Window ;;
  call (Window_setResizable true) ;;
  call (Window_setTitle "CardinalRemote") ;;
  call ScopedGraphicsContext_enter ;;
  s <- get ;;
  call (new_CardinalRemoteUI (templatePath s)) ;;
  call ScopedGraphicsContext_leave ;;
  call Window_show ;;
  call Application_exec.

(** *** Lines 216-233: teardown *)
Definition teardown : M W unit :=
  s <- get ;;
  p <- deref (patch (context s)) ;;
  call (Patch_clear p) ;;
  s <- get ;;
  (if negb (empty (autosavePath s))
   then removeRecursively (autosavePath s) ;; ret tt
   else ret tt) ;;
  INFO "Clearing asset paths" EmptyString ;;
  assign_asset (set_bundlePath EmptyString) ;;
  assign_asset (set_systemDir EmptyString) ;;
  assign_asset (set_userDir EmptyString) ;;
  INFO "Destroying plugins" EmptyString ;;
  call destroyStaticPlugins ;;
  INFO "Destroying settings" EmptyString ;;
  call settings_destroy ;;
  INFO "Destroying logger" EmptyString ;;
  call logger_destroy.

(** *** Lines 67-94: the settings of the remote

    The assignments to the globals of [rack::settings] (here and at line
    184) are not modelled: nothing in this file reads them back.  The
    sixteen calls that compute the cable colours are, in the order of the
    initializer list. *)
Definition configure_settings : M W unit :=
  call (color_fromHexString "#ff5252") ;;
  call (color_fromHexString "#ff9352") ;;
  call (color_fromHexString "#ffd452") ;;
  call (color_fromHexString "#e8ff52") ;;
  call (color_fromHexString "#a8ff52") ;;
  call (color_fromHexString "#67ff52") ;;
  call (color_fromHexString "#52ff7d") ;;
  call (color_fromHexString "#52ffbe") ;;
  call (color_fromHexString "#52ffff") ;;
  call (color_fromHexString "#52beff") ;;
  call (color_fromHexString "#527dff") ;;
  call (color_fromHexString "#6752ff") ;;
  call (color_fromHexString "#a852ff") ;;
  call (color_fromHexString "#e952ff") ;;
  call (color_fromHexString "#ff52d4") ;;
  call (color_fromHexString "#ff5293").

(** *** Lines 67-99: the settings, then the four subsystems *)
Definition init_subsystems : M W unit :=
  configure_settings ;;
  call system_init ;;
  call logger_init ;;
  call random_init ;;
  call ui_init.

(** *** Lines 67-157: the run up to the search for the temporary path *)
Definition before_scratch : M W unit :=
  init_subsystems ;;
  resolve_paths ;;
  log_environment ;;
  report_installation ;;
  INFO "Initializing plugins" EmptyString ;;
  call initStaticPlugins ;;
  INFO "Initializing plugin browser DB" EmptyString ;;
  call browserInit.

(** *** Lines 67-200: all of it up to the window *)
Definition startup (fuel : nat) : M W unit :=
  init_subsystems ;;
  resolve_paths ;;
  log_environment ;;
  report_installation ;;
  INFO "Initializing plugins" EmptyString ;;
  call initStaticPlugins ;;
  INFO "Initializing plugin browser DB" EmptyString ;;
  call browserInit ;;
  create_autosavePath fuel ;;
  construct_context.

(** *** Line 236: the closing brace

    The locals go in the reverse order of their declarations:
    [remoteUI], whose [ScopedPointer] deletes the UI, then [win], [app]
    and [context].  What a destructor does to its object is the
    destructor's business; the two strings go without a trace. *)
Definition destroy_locals : M W unit :=
  call delete_CardinalRemoteUI ;;
  call destroy_Window ;;
  call destroy_Application ;;
  call destroy_CardinalPluginContext.

(** *** [main] *)
Definition main (fuel : nat) : M W Z :=
  startup fuel ;;
  run_ui ;;
  teardown ;;
  destroy_locals ;;
  ret 0.
End Program.

(** ** A simulated file system

    One concrete world, for running the program: the set of the paths
    that exist.  Directory creation does what [behaviour] says; the calls
    outside [rack::system] leave the file system alone. *)

Module SimFS.

(** The join of the simulation puts a slash between the two parts. *)
Definition join_path (a b : string) : string := a +:+ "/" +:+ b.

(** [q] is [p] or lies below it. *)
Definition under (p q : string) : bool :=
  bool_decide (q = p) || String.prefix (p +:+ "/") q.

Record Behaviour := {
  temp_directory : exc string;
  common_program_files : string;
  operating_system : string;
  (** the result of every [createDirectories]; the directory appears
      only on [Ok true] *)
  creation : exc bool;
}.

Definition posix : Behaviour :=
  {| temp_directory := Ok "/tmp"; common_program_files := EmptyString;
     operating_system := "Linux"; creation := Ok true |}.

Definition collaborators (b : Behaviour) : Collaborators (gset string) :=
  {| system_join := join_path;
     system_exists p fs := (Ok (bool_decide (p ∈ fs)), fs);
     system_createDirectories p fs :=
       (creation b,
        match creation b with Ok true => {[p]} ∪ fs | _ => fs end);
     system_getTempDirectory fs := (temp_directory b, fs);
     system_removeRecursively p fs :=
       (Ok 1, filter (fun q => under p q = false) fs);
     system_getOperatingSystemInfo fs := (Ok (operating_system b), fs);
     getSpecialPath_CommonProgramFiles fs := (Ok (common_program_files b), fs);
     extern _ fs := (Ok tt, fs) |}.

End SimFS.

(** ** Observations and vocabulary of the statements *)

(** The state a run ends in, when it ends. *)
Definition final {S A} (o : outcome S A) : option S :=
  match o with
  | Returns _ s | Throws s | Undefined s => Some s
  | OutOfFuel => None
  end.

(** [m] leaves the observation [f] of the state as it found it, however
    it ends. *)
Definition preserves {W X A} (f : State W -> X) (m : M W A) : Prop :=
  forall s s', final (m s) = Some s' -> f s' = f s.

(** What holds of a run that returns. *)
Definition returned {S A} (o : outcome S A) (P : A -> S -> Prop) : Prop :=
  match o with
  | Returns a s => P a s
  | _ => False
  end.

(** The value a run returns. *)
Definition result {S A} (o : outcome S A) : option A :=
  match o with
  | Returns a _ => Some a
  | _ => None
  end.

(** A development build on a Unix-like system. *)
Definition cfg_source_dir : BuildConfig :=
  {| CARDINAL_PLUGIN_SOURCE_DIR := Some "/src"; DISTRHO_OS_SEP_STR := "/";
     ARCH := ARCH_LIN; CARDINAL_PLUGIN_PREFIX := "/usr/local" |}.

(** An installed build on a Unix-like system. *)
Definition cfg_installed : BuildConfig :=
  {| CARDINAL_PLUGIN_SOURCE_DIR := None; DISTRHO_OS_SEP_STR := "/";
     ARCH := ARCH_LIN; CARDINAL_PLUGIN_PREFIX := "/usr/local" |}.

(** An installed build on Windows. *)
Definition cfg_windows : BuildConfig :=
  {| CARDINAL_PLUGIN_SOURCE_DIR := None; DISTRHO_OS_SEP_STR := "\";
     ARCH := ARCH_WIN; CARDINAL_PLUGIN_PREFIX := EmptyString |}.

(** A development build on Windows. *)
Definition cfg_windows_source_dir : BuildConfig :=
  {| CARDINAL_PLUGIN_SOURCE_DIR := Some "C:\src"; DISTRHO_OS_SEP_STR := "\";
     ARCH := ARCH_WIN; CARDINAL_PLUGIN_PREFIX := EmptyString |}.

(** A Windows machine that knows its common program files. *)
Definition windows_box : SimFS.Behaviour :=
  {| SimFS.temp_directory := Ok "C:\Temp";
     SimFS.common_program_files := "C:\Program Files\Common Files";
     SimFS.operating_system := "Windows";
     SimFS.creation := Ok true |}.

(** A file system in which no directory can be created. *)
Definition read_only : SimFS.Behaviour :=
  {| SimFS.temp_directory := Ok "/tmp";
     SimFS.common_program_files := EmptyString;
     SimFS.operating_system := "Linux";
     SimFS.creation := Throw |}.

Section Vocabulary.
Context {W : Type} (env : Collaborators W) (cfg : BuildConfig).
Implicit Types s : State W.

(** The system dir derived from the source directory (line 104). *)
Definition source_systemDir (source_dir : string) : string :=
  source_dir +:+ DISTRHO_OS_SEP_STR cfg +:+ "Rack".

Definition source_templatePath (source_dir : string) : string :=
  source_dir +:+ DISTRHO_OS_SEP_STR cfg +:+ "template.vcv".

(** What [platform_default] leaves in the paths, read off the system dir
    it ends with. *)
Definition derived_from_systemDir (bundlePath0 : string) s' : Prop :=
  if empty (systemDir (asset s'))
  then bundlePath (asset s') = bundlePath0
  else bundlePath (asset s')
         = system_join env (systemDir (asset s')) "PluginManifests"
       /\ templatePath s'
         = system_join env (systemDir (asset s')) "template.vcv".

(** [trypath] at counter [i]. *)
Definition candidate (tmp : string) (i : Z) : string :=
  system_join env tmp (uidBuf i).

(** The state after [system::exists(p)] and after
    [system::createDirectories(p)]. *)
Definition probed (p : string) s : State W :=
  add_event (EvExists p) (set_world (system_exists env p (world s)).2 s).

Definition attempted (p : string) s : State W :=
  add_event (EvCreateDirectories p)
    (set_world (system_createDirectories env p (world s)).2 s).

(** [skips tmp i s k s']: from counter [i] in state [s] the loop finds
    every candidate below [k] to exist and reaches counter [k] in state
    [s']. *)
Inductive skips (tmp : string) : Z -> State W -> Z -> State W -> Prop :=
| skips_done i s : skips tmp i s i s
| skips_next i s k s' :
    (system_exists env (candidate tmp i) (world s)).1 = Ok true ->
    i < INT_MAX ->
    skips tmp (i + 1) (probed (candidate tmp i) s) k s' ->
    skips tmp i s k s'.

(** Where [autosavePath] can come from. *)
Definition created_at (tmp : string) (k : Z) s1 s' : Prop :=
  (system_exists env (candidate tmp k) (world s1)).1 = Ok false
  /\ (system_createDirectories env (candidate tmp k)
        (world (probed (candidate tmp k) s1))).1 = Ok true
  /\ s' = set_autosavePath (candidate tmp k)
            (attempted (candidate tmp k) (probed (candidate tmp k) s1)).

(** The state in which the loop starts: [autosavePath] is empty and the
    temp directory has been asked for. *)
Definition entered s : State W :=
  add_event EvGetTempDirectory
    (set_world (system_getTempDirectory env (world s)).2
       (set_autosavePath EmptyString s)).

(** The state the handler of [DISTRHO_SAFE_EXCEPTION] leaves when it
    catches an exception of the search in state [s]. *)
Definition caught s : State W :=
  add_event (EvSafeException "create unique temporary path") s.

End Vocabulary.

(** The number a list of digits denotes. *)
Definition value (l : list Z) : Z := fold_left (fun acc d => 10 * acc + d) l 0.

Definition is_digit (d : Z) : Prop := 0 <= d < 10.

(** Each allocation is one run of lines 159-178 in a process of its own;
    the runs share the simulated file system. *)
Definition allocate (b : SimFS.Behaviour) (fuel : nat) (fs : gset string)
  : option (string * gset string) :=
  match create_autosavePath (SimFS.collaborators b) fuel (initial_state fs) with
  | Returns _ s => Some (autosavePath s, world s)
  | _ => None
  end.

(** The path each allocation returned, with the file system right after
    it. *)
Fixpoint allocations (b : SimFS.Behaviour) (fuel n : nat) (fs : gset string)
  : option (list (string * gset string)) :=
  match n with
  | O => Some []
  | S n' =>
      match allocate b fuel fs with
      | Some (p, fs') =>
          match allocations b fuel n' fs' with
          | Some l => Some ((p, fs') :: l)
          | None => None
          end
      | None => None
      end
  end.

(** The [i]-th path as the counter alone would spell it. *)
Definition expected_path (tmp : string) (i : Z) : string :=
  SimFS.join_path tmp ("CardinalRemote." +:+ Printf.fmt_04d i).

Definition warnings (t : list Event) : list Warning :=
  omap (fun e => match e with EvStderr w => Some w | _ => None end) t.

Definition warning_count {W} (s : State W) : nat := length (warnings (trace s)).

(** [m] adds at most [n] warnings to the trace, however it ends. *)
Definition emits_at_most {W A} (n : nat) (m : M W A) : Prop :=
  forall s s', final (m s) = Some s' ->
               (warning_count s' <= warning_count s + n)%nat.

(** The event state points at the scene of the context, and the context
    registered with [rack::contextSet] is the local [context] of
    [main]. *)
Definition wired {W} (s : State W) : Prop :=
  threadContext s = Some addr_context
  /\ exists ev sc,
       event (context s) = Some ev
       /\ scene (context s) = Some sc
       /\ heap s !! ev = Some (EventState (Some sc))
       /\ heap s !! sc = Some Scene.

Definition cleared : Asset :=
  {| systemDir := EmptyString; userDir := EmptyString;
     bundlePath := EmptyString |}.

(** The colours of [settings::cableColors], in the order of the
    initializer list (lines 78-93). *)
Definition cableColors : list string :=
  [ "#ff5252"; "#ff9352"; "#ffd452"; "#e8ff52"; "#a8ff52"; "#67ff52";
    "#52ff7d"; "#52ffbe"; "#52ffff"; "#52beff"; "#527dff"; "#6752ff";
    "#a852ff"; "#e952ff"; "#ff52d4"; "#ff5293" ].

(** The paths handed to [removeRecursively], most recent first. *)
Definition removals (t : list Event) : list string :=
  omap (fun e => match e with EvRemoveRecursively p => Some p | _ => None end) t.

(** The paths handed to [exists] and to [createDirectories], most
    recent first. *)
Definition probes (t : list Event) : list string :=
  omap (fun e => match e with EvExists p => Some p | _ => None end) t.

Definition creations (t : list Event) : list string :=
  omap (fun e => match e with EvCreateDirectories p => Some p | _ => None end)
    t.

(** The trace without the operations on the file system (how many there
    are hangs on what it answers), the query for the common program
    files (made on one platform only) and the lines written to the log
    and to stderr; most recent first. *)
Definition in_outline (e : Event) : bool :=
  match e with
  | EvCall _ | EvGetOperatingSystemInfo => true
  | _ => false
  end.

Definition outline (t : list Event) : list Event :=
  omap (fun e => if in_outline e then Some e else None) t.

(** The counters [1 .. n], the last one first. *)
Definition counters_down (n : nat) : list Z := Z.of_nat <$> reverse (seq 1 n).

(** ** A world without state

    Every existence check gets the same answer; everything else
    succeeds. *)

Module Stub.

Definition collaborators (answer : exc bool) : Collaborators unit :=
  {| system_join := SimFS.join_path;
     system_exists _ w := (answer, w);
     system_createDirectories _ w := (Ok true, w);
     system_getTempDirectory w := (Ok "/tmp", w);
     system_removeRecursively _ w := (Ok 0, w);
     system_getOperatingSystemInfo w := (Ok "Linux", w);
     getSpecialPath_CommonProgramFiles w := (Ok EmptyString, w);
     extern _ w := (Ok tt, w) |}.

End Stub.

(** ** The buffer at work *)

Example uidBuf_1 : uidBuf 1 = "CardinalRemote.0001".
Proof. reflexivity. Qed.

Example uidBuf_12345 : uidBuf 12345 = "CardinalRemote.12345".
Proof. reflexivity. Qed.

Example uidBuf_truncated : uidBuf 100000000 = "CardinalRemote.10000000".
Proof. reflexivity. Qed.

(** ** Reasoning about runs *)

Section Reasoning.
Context {W : Type}.
Implicit Types s : State W.

Lemma bind_Returns {A B} (m : M W A) (f : A -> M W B) s b s' :
  bind m f s = Returns b s' ->
  exists a s1, m s = Returns a s1 /\ f a s1 = Returns b s'.
Proof.
  unfold bind. destruct (m s) as [a s1| | |]; try discriminate.
  intros H. by exists a, s1.
Qed.

Lemma bind_assoc {A B C} (m : M W A) (f : A -> M W B) (g : B -> M W C) s :
  bind (bind m f) g s = bind m (fun a => bind (f a) g) s.
Proof. unfold bind. destruct (m s); reflexivity. Qed.

Lemma bind_ext {A B} (m : M W A) (f g : A -> M W B) s :
  (forall a s', f a s' = g a s') -> bind m f s = bind m g s.
Proof. intros H. unfold bind. destruct (m s); [apply H | done..]. Qed.

Section Preserves.
Context {X : Type} (f : State W -> X).

Lemma preserves_ret {A} (a : A) : preserves f (ret a).
Proof. intros s s' [= <-]. reflexivity. Qed.

Lemma preserves_get : preserves f get.
Proof. intros s s' [= <-]. reflexivity. Qed.

Lemma preserves_undefined {A} : preserves f (@undefined W A).
Proof. intros s s' [= <-]. reflexivity. Qed.

Lemma preserves_out_of_fuel {A} : preserves f (@out_of_fuel W A).
Proof. intros s s' [=]. Qed.

Lemma preserves_modify (g : State W -> State W) :
  (forall s, f (g s) = f s) -> preserves f (modify g).
Proof. intros Hg s s' [= <-]. apply Hg. Qed.

Lemma preserves_invoke {A} (op : W -> exc A * W) (e : Event) :
  (forall w s, f (add_event e (set_world w s)) = f s) ->
  preserves f (invoke op e).
Proof.
  intros Hf s s'. unfold invoke.
  destruct (op (world s)).1; intros [= <-]; apply Hf.
Qed.

Lemma preserves_bind {A B} (m : M W A) (k : A -> M W B) :
  preserves f m -> (forall a, preserves f (k a)) -> preserves f (bind m k).
Proof.
  intros Hm Hk s s'. unfold bind.
  destruct (m s) as [a s1|s1|s1|] eqn:E; simpl.
  - intros H. rewrite (Hk a s1 s' H). apply Hm. by rewrite E.
  - intros [= <-]. apply Hm. by rewrite E.
  - intros [= <-]. apply Hm. by rewrite E.
  - discriminate.
Qed.

Lemma preserves_try_catch (body : M W unit) (msg : string) :
  (forall s, f (add_event (EvSafeException msg) s) = f s) ->
  preserves f body -> preserves f (try_catch body msg).
Proof.
  intros He Hb s s'. unfold try_catch.
  destruct (body s) as [a s1|s1|s1|] eqn:E; simpl; intros [= <-].
  - apply Hb. by rewrite E.
  - rewrite He. apply Hb. by rewrite E.
  - apply Hb. by rewrite E.
Qed.

Lemma preserves_deref (p : option loc) : preserves f (deref p).
Proof. destruct p; [apply preserves_ret | apply preserves_undefined]. Qed.
End Preserves.
End Reasoning.

(** Breaks a computation into its calls and closes each one with the
    lemmas above; what is left are the conditions on the state updates. *)
Ltac frame_step :=
  match goal with
  | |- preserves _ (bind _ _) => apply preserves_bind; [ | intros ? ]
  | |- preserves _ (ret _) => apply preserves_ret
  | |- preserves _ get => apply preserves_get
  | |- preserves _ undefined => apply preserves_undefined
  | |- preserves _ out_of_fuel => apply preserves_out_of_fuel
  | |- preserves _ (deref _) => apply preserves_deref
  | |- preserves _ (modify _) => apply preserves_modify; intros ?
  | |- preserves _ (invoke _ _) => apply preserves_invoke; intros ? ?
  | |- preserves _ (try_catch _ _) => apply preserves_try_catch; [ intros ? | ]
  | |- preserves _ (if ?b then _ else _) => destruct b
  | |- preserves _ (match ?x with _ => _ end) => destruct x
  end.

Ltac frame :=
  repeat (first
    [ frame_step
    | progress unfold call, exists_, createDirectories, getTempDirectory,
        removeRecursively, getOperatingSystemInfo, getSpecialPath, INFO,
        d_stderr2, log,
        assign_asset, assign_context, contextSet, new, store,
        configure_settings, destroy_locals ]);
  try reflexivity.

(** ** Path resolution (lines 101-131) *)

Section PathResolver.
Context {W : Type} (env : Collaborators W) (cfg : BuildConfig).
Implicit Types s : State W.

Lemma empty_append (a b : string) : empty (a +:+ b) = empty a && empty b.
Proof. destruct a; reflexivity. Qed.

Lemma source_systemDir_not_empty source_dir :
  empty (source_systemDir cfg source_dir) = false.
Proof.
  unfold source_systemDir. rewrite !empty_append. simpl.
  by rewrite !andb_false_r.
Qed.

Lemma source_templatePath_not_empty source_dir :
  empty (source_templatePath cfg source_dir) = false.
Proof.
  unfold source_templatePath. rewrite !empty_append. simpl.
  by rewrite !andb_false_r.
Qed.

Lemma platform_default_Returns s s' :
  platform_default env cfg s = Returns tt s' ->
  derived_from_systemDir env (bundlePath (asset s)) s'
  /\ (empty (systemDir (asset s')) = true -> templatePath s' = templatePath s)
  /\ userDir (asset s') = userDir (asset s).
Proof.
  unfold platform_default, derived_from_systemDir.
  unfold bind, assign_asset, modify, get, getSpecialPath, invoke, join, ret.
  destruct (ARCH cfg); simpl.
  - intros [= <-]. simpl. done.
  - destruct (getSpecialPath_CommonProgramFiles env (world s)) as [[cpf|] w1];
      simpl; [ | discriminate ].
    destruct (empty cpf); simpl.
    + destruct (empty (systemDir (asset s))) eqn:E; simpl;
        intros [= <-]; simpl; rewrite ?E; done.
    + destruct (empty (system_join env cpf "Cardinal")) eqn:E; simpl;
        intros [= <-]; simpl; rewrite ?E; done.
  - rewrite empty_append, andb_false_r. simpl.
    intros [= <-]. simpl. rewrite empty_append, andb_false_r. done.
Qed.

(** Every returning run of the path resolution. *)
Lemma resolve_paths_Returns s b s' :
  resolve_paths env cfg s = Returns b s' ->
  userDir (asset s') = systemDir (asset s')
  /\ match b with
     | SourceDirBranch =>
         exists source_dir,
           CARDINAL_PLUGIN_SOURCE_DIR cfg = Some source_dir
           /\ (system_exists env
                 (system_join env (source_systemDir cfg source_dir) "res")
                 (world s)).1 = Ok true
           /\ systemDir (asset s') = source_systemDir cfg source_dir
           /\ templatePath s' = source_templatePath cfg source_dir
           /\ bundlePath (asset s') = bundlePath (asset s)
           /\ trace s'
              = EvExists (system_join env (source_systemDir cfg source_dir) "res")
                  :: trace s
     | PlatformDefaultBranch =>
         derived_from_systemDir env (bundlePath (asset s)) s'
         /\ (empty (systemDir (asset s')) = true ->
             templatePath s' = EmptyString)
     end.
Proof.
  unfold resolve_paths. intros H.
  apply bind_Returns in H as (? & s0 & [= <- <-] & H).
  apply bind_Returns in H as (b' & s1 & H & H').
  unfold bind, get, assign_asset, modify, ret in H'. simpl in H'.
  injection H' as <- <-. simpl. split; [done|].
  destruct (CARDINAL_PLUGIN_SOURCE_DIR cfg) as [source_dir|] eqn:Hsrc.
  - apply bind_Returns in H as (? & s2 & [= <- <-] & H).
    apply bind_Returns in H as (? & s3 & [= <- <-] & H).
    apply bind_Returns in H as (has_res & s4 & Hex & H).
    unfold exists_, invoke, join in Hex. simpl in Hex.
    fold (source_systemDir cfg source_dir) in Hex.
    destruct (system_exists env _ (world s)).1 as [r|] eqn:Hres;
      [ | discriminate ].
    injection Hex as -> <-.
    destruct has_res.
    + unfold bind, modify, ret in H. injection H as <- <-. simpl.
      exists source_dir. by repeat split.
    + apply bind_Returns in H as ([] & s5 & Hpd & [= <- <-]).
      apply platform_default_Returns in Hpd as (Hd & Ht & _).
      simpl in *. unfold derived_from_systemDir in *. simpl. split; [done|].
      intros E. rewrite E in Hd. apply Ht, E.
  - apply bind_Returns in H as ([] & s5 & Hpd & [= <- <-]).
    apply platform_default_Returns in Hpd as (Hd & Ht & _).
    simpl in *. unfold derived_from_systemDir in *. simpl. split; [done|].
    intros E. apply Ht, E.
Qed.
End PathResolver.

(** ** The names the search tries *)

Section Formatting.
Import Printf.

Lemma value_snoc l d : value (l ++ [d]) = 10 * value l + d.
Proof. unfold value. by rewrite fold_left_app. Qed.

Lemma value_digits_w w n : value (digits_w w n) = n mod 10 ^ Z.of_nat w.
Proof.
  revert n. induction w as [|w IH]; intros n.
  - simpl. by rewrite Z.mod_1_r.
  - cbn [digits_w]. rewrite value_snoc, IH.
    rewrite Nat2Z.inj_succ, Z.pow_succ_r by lia.
    rewrite Z.rem_mul_r by lia. lia.
Qed.

Lemma digits_w_digits w n : Forall is_digit (digits_w w n).
Proof.
  revert n. induction w as [|w IH]; intros n; cbn [digits_w].
  - constructor.
  - apply Forall_app. split; [apply IH|].
    constructor; [|constructor]. unfold is_digit.
    pose proof (Z.mod_pos_bound n 10). lia.
Qed.

Lemma length_digits_w w n : length (digits_w w n) = w.
Proof.
  revert n. induction w as [|w IH]; intros n; cbn [digits_w].
  - reflexivity.
  - rewrite length_app, IH. simpl. lia.
Qed.

(** A number below [10^w] has a leading zero on [w + 1] positions. *)
Lemma digits_w_small w n :
  0 <= n < 10 ^ Z.of_nat w -> digits_w (S w) n = 0 :: digits_w w n.
Proof.
  revert n. induction w as [|w IH]; intros n Hn.
  - assert (n = 0) as -> by (simpl in Hn; lia). reflexivity.
  - change (digits_w (S (S w)) n)
      with (digits_w (S w) (n / 10) ++ [n mod 10]).
    rewrite IH; [reflexivity|].
    rewrite Nat2Z.inj_succ, Z.pow_succ_r in Hn by lia.
    split; [apply Z.div_pos; lia|].
    apply Z.div_lt_upper_bound; lia.
Qed.

Lemma value_strip_zeros keep l : value (strip_zeros keep l) = value l.
Proof.
  induction l as [|d l IH]; [reflexivity|].
  cbn [strip_zeros]. destruct d; try reflexivity.
  destruct (Nat.ltb _ _); [|reflexivity].
  rewrite IH. reflexivity.
Qed.

Lemma strip_zeros_digits keep l :
  Forall is_digit l -> Forall is_digit (strip_zeros keep l).
Proof.
  induction 1 as [|d l Hd Hl IH]; [constructor|].
  cbn [strip_zeros]. destruct d; try by constructor.
  destruct (Nat.ltb _ _); [done | by constructor].
Qed.

Lemma length_strip_zeros keep l : (length (strip_zeros keep l) <= length l)%nat.
Proof.
  induction l as [|d l IH]; [reflexivity|].
  cbn [strip_zeros]. destruct d; try reflexivity.
  destruct (Nat.ltb _ _); simpl in *; lia.
Qed.

Lemma strip_zeros_zero keep l :
  (keep <= length l)%nat -> strip_zeros keep (0 :: l) = strip_zeros keep l.
Proof.
  intros H. cbn [strip_zeros].
  destruct (Nat.ltb_spec keep (length (0 :: l))); [reflexivity|].
  simpl in *. lia.
Qed.

Lemma digit_char_inj d e :
  is_digit d -> is_digit e -> digit_char d = digit_char e -> d = e.
Proof.
  unfold is_digit. intros Hd He.
  assert (Hcase : forall x, 0 <= x < 10 ->
            x = 0 \/ x = 1 \/ x = 2 \/ x = 3 \/ x = 4
            \/ x = 5 \/ x = 6 \/ x = 7 \/ x = 8 \/ x = 9) by lia.
  destruct (Hcase d Hd) as [->|[->|[->|[->|[->|[->|[->|[->|[->| ->]]]]]]]]];
  destruct (Hcase e He) as [->|[->|[->|[->|[->|[->|[->|[->|[->| ->]]]]]]]]];
  vm_compute; congruence.
Qed.

Lemma string_of_digits_inj l m :
  Forall is_digit l -> Forall is_digit m ->
  string_of_digits l = string_of_digits m -> l = m.
Proof.
  intros Hl. revert m. induction Hl as [|d l Hd Hl IH]; intros m Hm.
  - destruct m; [reflexivity | discriminate].
  - destruct Hm as [|e m He Hm]; [discriminate|].
    simpl. intros [= Hc Hs]. f_equal; [by apply digit_char_inj | by apply IH].
Qed.

Lemma length_string_of_digits l :
  String.length (string_of_digits l) = length l.
Proof. induction l as [|d l IH]; simpl; [reflexivity | by f_equal]. Qed.

Lemma string_length_append (a b : string) :
  String.length (a +:+ b) = (String.length a + String.length b)%nat.
Proof. induction a as [|c a IH]; simpl; [reflexivity | by f_equal]. Qed.

Lemma string_take_all n (s : string) :
  (String.length s <= n)%nat -> string_take n s = s.
Proof.
  revert n. induction s as [|c s IH]; intros [|n] H; simpl in *;
    try reflexivity; try lia.
  rewrite IH; [reflexivity | lia].
Qed.

Lemma length_string_take n (s : string) :
  (String.length (string_take n s) <= n)%nat.
Proof.
  revert s. induction n as [|n IH]; intros [|c s]; simpl; try lia.
  specialize (IH s). lia.
Qed.

(** [%04d] tells the numbers of an [int]'s range apart. *)
Lemma fmt_04d_inj i j :
  0 <= i < 10 ^ 10 -> 0 <= j < 10 ^ 10 -> fmt_04d i = fmt_04d j -> i = j.
Proof.
  intros Hi Hj. unfold fmt_04d.
  destruct (Z.ltb_spec i 0); [lia|]. destruct (Z.ltb_spec j 0); [lia|].
  intros Heq. apply string_of_digits_inj in Heq;
    try (apply strip_zeros_digits, digits_w_digits).
  apply (f_equal value) in Heq.
  rewrite !value_strip_zeros, !value_digits_w in Heq.
  change (Z.of_nat 10) with 10 in Heq.
  rewrite !Z.mod_small in Heq; lia.
Qed.

(** Below [10^8] the formatted counter has at most eight characters. *)
Lemma length_fmt_04d i :
  0 <= i < 10 ^ 8 -> (String.length (fmt_04d i) <= 8)%nat.
Proof.
  intros Hi. unfold fmt_04d. destruct (Z.ltb_spec i 0); [lia|].
  rewrite length_string_of_digits.
  rewrite (digits_w_small 9) by (change (Z.of_nat 9) with 9; lia).
  rewrite (digits_w_small 8) by (change (Z.of_nat 8) with 8; lia).
  rewrite !strip_zeros_zero by (rewrite ?length_cons, length_digits_w; lia).
  etrans; [apply length_strip_zeros|]. by rewrite length_digits_w.
Qed.

(** The name fits the buffer. *)
Lemma uidBuf_exact i :
  0 <= i < 10 ^ 8 -> uidBuf i = "CardinalRemote." +:+ fmt_04d i.
Proof.
  intros Hi. unfold uidBuf, snprintf. apply string_take_all.
  rewrite string_length_append. pose proof (length_fmt_04d i Hi).
  simpl. unfold uidBuf_size. lia.
Qed.

Lemma uidBuf_inj i j :
  0 <= i < 10 ^ 8 -> 0 <= j < 10 ^ 8 -> uidBuf i = uidBuf j -> i = j.
Proof.
  intros Hi Hj. rewrite !uidBuf_exact by done. simpl. intros [= H].
  apply fmt_04d_inj in H; lia.
Qed.

(** Whatever the counter, the buffer holds at most 23 characters. *)
Lemma length_uidBuf i : (String.length (uidBuf i) <= 23)%nat.
Proof. apply (length_string_take 23). Qed.
End Formatting.

(** ** The search for a unique temporary path (lines 159-178) *)

Section Allocator.
Context {W : Type} (env : Collaborators W).
Implicit Types s : State W.

Lemma skips_le tmp i s k s' : skips env tmp i s k s' -> i <= k.
Proof. induction 1; lia. Qed.

Lemma skips_autosavePath tmp i s k s' :
  skips env tmp i s k s' -> autosavePath s' = autosavePath s.
Proof. induction 1 as [|i s k s' _ _ _ IH]; [reflexivity | by rewrite IH]. Qed.

Lemma search_skip fuel tmp i s :
  (system_exists env (candidate env tmp i) (world s)).1 = Ok true ->
  i < INT_MAX ->
  search env (S fuel) tmp i s
  = search env fuel tmp (i + 1) (probed env (candidate env tmp i) s).
Proof.
  intros Hex Hi. cbn [search]. unfold bind at 1, exists_, invoke, join.
  fold (candidate env tmp i). rewrite Hex. cbn [negb].
  destruct (Z.eqb_spec i INT_MAX); [lia|]. reflexivity.
Qed.

(** At a candidate that does not exist the loop ends in this very
    iteration, whatever [createDirectories] answers. *)
Lemma search_stop fuel tmp i s :
  (system_exists env (candidate env tmp i) (world s)).1 = Ok false ->
  search env (S fuel) tmp i s
  = let s1 := probed env (candidate env tmp i) s in
    let s2 := attempted env (candidate env tmp i) s1 in
    match (system_createDirectories env (candidate env tmp i) (world s1)).1 with
    | Ok true => Returns tt (set_autosavePath (candidate env tmp i) s2)
    | Ok false => Returns tt s2
    | Throw => Throws s2
    end.
Proof.
  intros Hex. cbn [search]. unfold bind at 1, exists_, invoke, join.
  fold (candidate env tmp i). rewrite Hex. cbn [negb].
  unfold bind, createDirectories, invoke, probed, attempted. simpl.
  destruct (system_createDirectories env _ _).1 as [[]|]; reflexivity.
Qed.

Lemma search_skips tmp i s k s' :
  skips env tmp i s k s' ->
  forall fuel,
    search env (Z.to_nat (k - i) + fuel) tmp i s = search env fuel tmp k s'.
Proof.
  induction 1 as [i s|i s k s' Hex Hi Hskips IH]; intros fuel.
  - by rewrite Z.sub_diag.
  - apply skips_le in Hskips as Hle.
    replace (Z.to_nat (k - i) + fuel)%nat
      with (S (Z.to_nat (k - (i + 1)) + fuel)) by lia.
    rewrite search_skip by done. apply IH.
Qed.

Lemma search_outcome fuel tmp i s :
  match search env fuel tmp i s with
  | Returns _ s' =>
      autosavePath s' = autosavePath s
      \/ exists k s1, i <= k /\ created_at env tmp k s1 s'
  | Throws s' | Undefined s' => autosavePath s' = autosavePath s
  | OutOfFuel => True
  end.
Proof.
  revert i s. induction fuel as [|fuel IH]; intros i s; [exact I|].
  destruct (system_exists env (candidate env tmp i) (world s)).1
    as [[]|] eqn:Hex.
  - destruct (Z.eq_dec i INT_MAX) as [->|Hne].
    + cbn [search]. unfold bind, exists_, invoke, join.
      fold (candidate env tmp INT_MAX). rewrite Hex. reflexivity.
    + assert (i < INT_MAX \/ INT_MAX < i) as [Hlt|Hgt] by lia.
      * rewrite search_skip by done.
        specialize (IH (i + 1) (probed env (candidate env tmp i) s)).
        destruct (search env fuel tmp (i + 1) _); try done.
        destruct IH as [IH|(k & s1 & Hk & Hc)]; [by left|].
        right. exists k, s1. split; [lia | done].
      * cbn [search]. unfold bind at 1, exists_, invoke, join.
        fold (candidate env tmp i). rewrite Hex. cbn [negb].
        destruct (Z.eqb_spec i INT_MAX); [lia|].
        specialize (IH (i + 1) (probed env (candidate env tmp i) s)).
        unfold probed in IH.
        destruct (search env fuel tmp (i + 1) _); try done.
        destruct IH as [IH|(k & s1 & Hk & Hc)]; [by left|].
        right. exists k, s1. split; [lia | done].
  - rewrite search_stop by done. cbn zeta.
    destruct (system_createDirectories env _ _).1 as [[]|] eqn:Hcr;
      [ | by left | done ].
    right. exists i, s. split; [lia|]. by split.
  - cbn [search]. unfold bind, exists_, invoke, join.
    fold (candidate env tmp i). rewrite Hex. reflexivity.
Qed.
Lemma create_autosavePath_unfold fuel s :
  create_autosavePath env fuel s
  = match (system_getTempDirectory env (world s)).1 with
    | Ok tmp =>
        match search env fuel tmp 1 (entered env s) with
        | Throws s' =>
            Returns tt
              (add_event (EvSafeException "create unique temporary path") s')
        | o => o
        end
    | Throw =>
        Returns tt
          (add_event (EvSafeException "create unique temporary path")
             (entered env s))
    end.
Proof.
  unfold create_autosavePath, try_catch, bind, modify, getTempDirectory, invoke.
  simpl. fold (entered env s).
  destruct (system_getTempDirectory env (world s)).1; reflexivity.
Qed.

(** A search that returns has either left [autosavePath] alone or has
    skipped the candidates below some [k] and created the [k]-th. *)
Lemma search_Returns fuel tmp i s s' :
  i <= INT_MAX ->
  search env fuel tmp i s = Returns tt s' ->
  autosavePath s' = autosavePath s
  \/ exists k s1, skips env tmp i s k s1 /\ created_at env tmp k s1 s'.
Proof.
  revert i s. induction fuel as [|fuel IH]; intros i s Hi; [discriminate|].
  destruct (system_exists env (candidate env tmp i) (world s)).1
    as [[]|] eqn:Hex.
  - destruct (Z.eq_dec i INT_MAX) as [->|Hne].
    + cbn [search]. unfold bind, exists_, invoke, join.
      fold (candidate env tmp INT_MAX). rewrite Hex. discriminate.
    + rewrite search_skip by (first [done | lia]).
      intros [H|(k & s1 & Hskips & Hc)]%IH; [by left | | lia].
      right. exists k, s1. split; [|done].
      apply skips_next; [done | lia | done].
  - rewrite search_stop by done. cbn zeta.
    destruct (system_createDirectories env _ _).1 as [[]|] eqn:Hcr;
      intros [= <-]; [ | by left ].
    right. exists i, s. split; [constructor | by split].
  - cbn [search]. unfold bind, exists_, invoke, join.
    fold (candidate env tmp i). rewrite Hex. discriminate.
Qed.

Lemma create_autosavePath_Returns fuel s s' :
  create_autosavePath env fuel s = Returns tt s' ->
  autosavePath s' = EmptyString
  \/ exists tmp k s1,
       (system_getTempDirectory env (world s)).1 = Ok tmp
       /\ skips env tmp 1 (entered env s) k s1
       /\ created_at env tmp k s1 s'.
Proof.
  rewrite create_autosavePath_unfold.
  destruct (system_getTempDirectory env (world s)).1 as [tmp|];
    [|intros [= <-]; by left].
  pose proof (search_outcome fuel tmp 1 (entered env s)) as Ho.
  destruct (search env fuel tmp 1 (entered env s)) as [[] s1|s1|s1|] eqn:E;
    try discriminate.
  - intros [= <-].
    apply search_Returns in E as [E|(k & s0 & Hskips & Hc)];
      [by left | | unfold INT_MAX; lia].
    right. by exists tmp, k, s0.
  - intros [= <-]. by left.
Qed.

(** C3.  Whatever the file system does, the search for the temporary
    path lets no exception out.  An exception of [getTempDirectory], of
    an existence check or of [createDirectories] ends the search on the
    spot: the handler runs, the block returns, and [autosavePath] is
    empty.  At the first candidate that does not exist the search ends
    in that very iteration, after as many iterations as candidates were
    tried, whether or not the directory could be created: [autosavePath]
    is that candidate when the creation answers yes and is empty when it
    answers no.  And a run that returns with a path that is not empty got
    it this way: from the temp directory this run was given, after
    skipping the candidates that exist, by a creation that answered
    yes. *)
Theorem create_autosavePath_hardened fuel s :
  (forall s', create_autosavePath env fuel s <> Throws s')
  /\ ((system_getTempDirectory env (world s)).1 = Throw ->
      create_autosavePath env fuel s = Returns tt (caught (entered env s))
      /\ autosavePath (caught (entered env s)) = EmptyString)
  /\ (forall tmp k s1,
        (system_getTempDirectory env (world s)).1 = Ok tmp ->
        skips env tmp 1 (entered env s) k s1 ->
        (Z.to_nat k <= fuel)%nat ->
        (system_exists env (candidate env tmp k) (world s1)).1 = Throw ->
        create_autosavePath env fuel s
        = Returns tt (caught (probed env (candidate env tmp k) s1))
        /\ autosavePath (caught (probed env (candidate env tmp k) s1))
           = EmptyString)
  /\ (forall tmp k s1,
        (system_getTempDirectory env (world s)).1 = Ok tmp ->
        skips env tmp 1 (entered env s) k s1 ->
        (Z.to_nat k <= fuel)%nat ->
        (system_exists env (candidate env tmp k) (world s1)).1 = Ok false ->
        let s2 := attempted env (candidate env tmp k)
                    (probed env (candidate env tmp k) s1) in
        match (system_createDirectories env (candidate env tmp k)
                 (world (probed env (candidate env tmp k) s1))).1 with
        | Ok true =>
            create_autosavePath env fuel s
            = Returns tt (set_autosavePath (candidate env tmp k) s2)
        | Ok false =>
            create_autosavePath env fuel s = Returns tt s2
            /\ autosavePath s2 = EmptyString
        | Throw =>
            create_autosavePath env fuel s = Returns tt (caught s2)
            /\ autosavePath (caught s2) = EmptyString
        end)
  /\ (forall s',
        create_autosavePath env fuel s = Returns tt s' ->
        autosavePath s' = EmptyString
        \/ exists tmp k s1,
             (system_getTempDirectory env (world s)).1 = Ok tmp
             /\ skips env tmp 1 (entered env s) k s1
             /\ created_at env tmp k s1 s').
Proof.
  split; [|split; [|split; [|split]]].
  - rewrite create_autosavePath_unfold.
    intros s'. destruct (system_getTempDirectory env (world s)).1;
      [destruct (search env fuel a 1 (entered env s))|]; discriminate.
  - rewrite create_autosavePath_unfold. by intros ->.
  - rewrite create_autosavePath_unfold.
    intros tmp k s1 -> Hskips Hfuel Hex.
    apply skips_le in Hskips as Hk.
    replace fuel with (Z.to_nat (k - 1) + S (fuel - Z.to_nat k))%nat by lia.
    rewrite (search_skips _ _ _ _ _ Hskips).
    apply skips_autosavePath in Hskips as Hkeep. simpl in Hkeep.
    cbn [search]. unfold bind, exists_, invoke, join.
    fold (candidate env tmp k). rewrite Hex. by split.
  - rewrite create_autosavePath_unfold.
    intros tmp k s1 -> Hskips Hfuel Hex.
    apply skips_le in Hskips as Hk.
    replace fuel with (Z.to_nat (k - 1) + S (fuel - Z.to_nat k))%nat by lia.
    rewrite (search_skips _ _ _ _ _ Hskips), search_stop by done. cbn zeta.
    apply skips_autosavePath in Hskips as Hkeep. simpl in Hkeep.
    destruct (system_createDirectories env _ _).1 as [[]|]; by repeat split.
  - apply create_autosavePath_Returns.
Qed.
End Allocator.

(** ** Allocations in isolation *)

Section Isolation.
Import SimFS.
Context (b : Behaviour) (tmp : string).
Hypothesis Htmp : temp_directory b = Ok tmp.
Hypothesis Hcreate : creation b = Ok true.

Local Abbreviation env := (collaborators b).
Local Abbreviation cand := (candidate (collaborators b) tmp).

Lemma string_app_inv_head (p x y : string) : p +:+ x = p +:+ y -> x = y.
Proof. induction p as [|c p IH]; simpl; [done|]. intros [= H]. by apply IH. Qed.

Lemma cand_inj i j :
  0 <= i < 10 ^ 8 -> 0 <= j < 10 ^ 8 -> cand i = cand j -> i = j.
Proof.
  intros Hi Hj. unfold candidate. simpl. unfold join_path.
  intros H%string_app_inv_head%string_app_inv_head.
  by apply uidBuf_inj.
Qed.

Lemma cand_expected i : 0 <= i < 10 ^ 8 -> cand i = expected_path tmp i.
Proof.
  intros Hi. unfold candidate, expected_path. simpl.
  by rewrite uidBuf_exact.
Qed.

Lemma cand_not_empty i : cand i <> EmptyString.
Proof.
  unfold candidate. simpl. unfold join_path. intros H.
  apply (f_equal String.length) in H.
  rewrite !string_length_append in H. simpl in H. lia.
Qed.

Lemma sim_skips (n : nat) i (s : State (gset string)) :
  (forall j, i <= j < i + Z.of_nat n -> cand j ∈ world s) ->
  i + Z.of_nat n <= INT_MAX ->
  exists s',
    skips env tmp i s (i + Z.of_nat n) s' /\ world s' = world s.
Proof.
  revert i s. induction n as [|n IH]; intros i s Hin Hmax.
  - exists s. rewrite Z.add_0_r. split; [constructor | reflexivity].
  - destruct (IH (i + 1) (probed env (cand i) s)) as (s' & Hskips & Hw).
    + intros j Hj. simpl. apply Hin. lia.
    + lia.
    + exists s'. split; [|exact Hw].
      apply skips_next; [| lia |].
      * simpl. rewrite bool_decide_eq_true_2; [reflexivity|]. apply Hin. lia.
      * by replace (i + Z.of_nat (S n)) with (i + 1 + Z.of_nat n) by lia.
Qed.

(** With the candidates [1 .. k] taken and the next one free, the
    allocator creates candidate [k + 1]. *)
Lemma allocate_next (k : Z) fuel (fs : gset string) :
  0 <= k -> k + 1 <= INT_MAX ->
  (forall j, 1 <= j <= k -> cand j ∈ fs) ->
  cand (k + 1) ∉ fs ->
  (Z.to_nat (k + 1) <= fuel)%nat ->
  allocate b fuel fs = Some (cand (k + 1), {[cand (k + 1)]} ∪ fs).
Proof.
  intros Hk Hmax Hin Hout Hfuel. unfold allocate.
  rewrite create_autosavePath_unfold. simpl. rewrite Htmp.
  destruct (sim_skips (Z.to_nat k) 1 (entered env (initial_state fs)))
    as (s' & Hskips & Hw).
  { intros j Hj. simpl. apply Hin. lia. }
  { lia. }
  rewrite Z2Nat.id in Hskips by lia. simpl in Hw.
  replace fuel
    with (Z.to_nat (1 + k - 1) + S (fuel - Z.to_nat (k + 1)))%nat by lia.
  rewrite (search_skips _ _ _ _ _ _ Hskips).
  replace (1 + k) with (k + 1) by lia.
  rewrite search_stop.
  - simpl. rewrite Hcreate. simpl. rewrite Hcreate, Hw. reflexivity.
  - simpl. rewrite Hw, bool_decide_eq_false_2; done.
Qed.

Lemma allocations_from (n : nat) (k : Z) fuel (fs : gset string) :
  0 <= k -> k + Z.of_nat n < 10 ^ 8 ->
  (forall j, 1 <= j <= k -> cand j ∈ fs) ->
  (forall j, k < j < 10 ^ 8 -> cand j ∉ fs) ->
  (Z.to_nat (k + Z.of_nat n) <= fuel)%nat ->
  exists l,
    allocations b fuel n fs = Some l
    /\ l.*1 = (fun i => cand (k + Z.of_nat i)) <$> seq 1 n
    /\ Forall (fun r => r.1 ∈ r.2) l.
Proof.
  revert k fs. induction n as [|n IH]; intros k fs Hk Hn Hin Hout Hfuel.
  - exists []. by repeat split.
  - cbn [allocations].
    rewrite (allocate_next k)
      by (first [done | apply Hout; lia | unfold INT_MAX; lia]).
    destruct (IH (k + 1) ({[cand (k + 1)]} ∪ fs)) as (l & -> & Hl & Hex);
      try lia.
    + intros j Hj. destruct (decide (j = k + 1)) as [Heq|Hne].
      * rewrite Heq. by apply elem_of_union_l, elem_of_singleton.
      * apply elem_of_union_r, Hin. lia.
    + intros j Hj Hel.
      apply elem_of_union in Hel as [Heq%elem_of_singleton|Hfs].
      * apply cand_inj in Heq; lia.
      * apply (Hout j); [lia | done].
    + eexists. split; [reflexivity|]. split.
      * cbn [fmap list_fmap seq fst]. f_equal.
        rewrite <- fmap_S_seq, <- list_fmap_compose. rewrite Hl.
        apply list_fmap_ext. intros _ i _. simpl. do 2 f_equal. lia.
      * constructor; [simpl; set_solver | done].
Qed.

(** C2, amended.  For every N from 1 to 99999999, N allocations in
    isolation (no candidate exists beforehand, every creation succeeds)
    return N pairwise distinct paths, whose suffixes are the counters 1, 2,
    ..., N in this order, each written with at least four digits; and each
    path is not empty and exists right after its allocation. *)
Theorem isolated_allocations (N fuel : nat) (fs : gset string) :
  (1 <= N)%nat -> Z.of_nat N < 10 ^ 8 ->
  (forall i, cand i ∉ fs) ->
  (N <= fuel)%nat ->
  exists l,
    allocations b fuel N fs = Some l
    /\ l.*1 = (fun i => expected_path tmp (Z.of_nat i)) <$> seq 1 N
    /\ NoDup l.*1
    /\ Forall (fun r => r.1 <> EmptyString /\ r.1 ∈ r.2) l.
Proof.
  intros HN Hmax Hfree Hfuel.
  destruct (allocations_from N 0 fuel fs) as (l & Hl & Hp & Hex);
    try lia; try done.
  exists l. split; [done|].
  assert (Hp' : l.*1 = (fun i => cand (Z.of_nat i)) <$> seq 1 N) by done.
  split; [|split].
  - rewrite Hp'. apply list_fmap_ext. intros _ i Hi%list_elem_of_lookup_2.
    apply elem_of_seq in Hi. apply cand_expected. lia.
  - rewrite Hp'. apply NoDup_fmap_2_strong; [|apply NoDup_seq].
    intros i j Hi%elem_of_seq Hj%elem_of_seq Heq.
    apply cand_inj in Heq; lia.
  - apply Forall_and. split; [|done].
    apply (Forall_fmap fst (fun p => p <> EmptyString)). rewrite Hp'.
    apply Forall_fmap, Forall_forall. intros i _. apply cand_not_empty.
Qed.
End Isolation.

Lemma allocate_Some b fuel fs p fs' :
  allocate b fuel fs = Some (p, fs') ->
  p = EmptyString
  \/ exists tmp i,
       SimFS.temp_directory b = Ok tmp /\ p = SimFS.join_path tmp (uidBuf i).
Proof.
  unfold allocate.
  destruct (create_autosavePath _ fuel (initial_state fs)) as [[] s| | |] eqn:E;
    try discriminate.
  intros [= <- <-].
  apply create_autosavePath_Returns
    in E as [E|(tmp & k & s1 & Htmp & _ & _ & _ & ->)]; [by left|].
  right. by exists tmp, k.
Qed.

Lemma allocations_paths b fuel n fs l p :
  allocations b fuel n fs = Some l -> p ∈ l.*1 ->
  p = EmptyString
  \/ exists tmp i,
       SimFS.temp_directory b = Ok tmp /\ p = SimFS.join_path tmp (uidBuf i).
Proof.
  revert fs l. induction n as [|n IH]; intros fs l; cbn [allocations].
  - intros [= <-]. by intros ?%elem_of_nil.
  - destruct (allocate b fuel fs) as [[q fs']|] eqn:E; [|discriminate].
    destruct (allocations b fuel n fs') as [l'|] eqn:E'; [|discriminate].
    intros [= <-]. cbn [fmap list_fmap fst].
    intros [->|Hin]%elem_of_cons; [by eapply allocate_Some | by eapply IH].
Qed.

(** C2 as stated fails at N = 100000000: the buffer has room for eight
    digits only, so no run returns a path that ends in 100000000. *)
Lemma isolated_allocations_counterexample :
  ~ exists fuel l,
      allocations SimFS.posix fuel (Z.to_nat 100000000) ∅ = Some l
      /\ l.*1 = (fun i => expected_path "/tmp" (Z.of_nat i))
                <$> seq 1 (Z.to_nat 100000000).
Proof.
  intros (fuel & l & Hl & Hp).
  assert (Hin : expected_path "/tmp" 100000000 ∈ l.*1).
  { rewrite Hp. apply list_elem_of_fmap. exists (Z.to_nat 100000000).
    split; [by rewrite Z2Nat.id by lia | apply elem_of_seq; lia]. }
  apply (allocations_paths _ _ _ _ _ _ Hl) in Hin
    as [Hin|(tmp & i & [= <-] & Hin)].
  - discriminate.
  - apply (f_equal String.length) in Hin.
    unfold SimFS.join_path in Hin. rewrite !string_length_append in Hin.
    pose proof (length_uidBuf i).
    change (String.length (expected_path "/tmp" 100000000)) with 29%nat in Hin.
    change (String.length "/tmp") with 4%nat in Hin.
    change (String.length "/") with 1%nat in Hin. lia.
Qed.

(** ** Concrete runs *)

Lemma returned_intro {S A} (o : outcome S A) (P : A -> S -> Prop) :
  is_Some (result o) -> (forall a s, o = Returns a s -> P a s) -> returned o P.
Proof. destruct o; simpl; intros [? [=]] HP; eauto. Qed.

Example installed_paths :
  returned
    (resolve_paths (SimFS.collaborators SimFS.posix) cfg_installed
       (initial_state ∅))
    (fun branch s =>
       branch = PlatformDefaultBranch
       /\ systemDir (asset s) = "/usr/local/share/cardinal"
       /\ bundlePath (asset s) = "/usr/local/share/cardinal/PluginManifests"
       /\ templatePath s = "/usr/local/share/cardinal/template.vcv").
Proof. vm_compute. by repeat split. Qed.

(** ** The claims on path resolution *)

(** C1 as stated fails: the source directory is [/src], its [res]
    subfolder exists (and so does [/src/Rack/res], which is what the code
    looks for), the source-directory arm runs, and the system dir is
    [/src/Rack], not [/src]. *)
Lemma source_dir_override_counterexample :
  CARDINAL_PLUGIN_SOURCE_DIR cfg_source_dir = Some "/src"
  /\ "/src/res" ∈ ({[ "/src/res"; "/src/Rack/res"; "/src/template.vcv" ]}
                    : gset string)
  /\ returned
       (resolve_paths (SimFS.collaborators SimFS.posix) cfg_source_dir
          (initial_state
             {[ "/src/res"; "/src/Rack/res"; "/src/template.vcv" ]}))
       (fun branch s =>
          branch = SourceDirBranch
          /\ systemDir (asset s) = "/src/Rack"
          /\ systemDir (asset s) <> "/src").
Proof.
  split; [reflexivity|]. split; [set_solver|].
  vm_compute. by repeat split.
Qed.

(** C1, amended.  For every configuration with a source directory, if
    the [res] subfolder exists under [<source dir><sep>Rack], then the
    system dir is [<source dir><sep>Rack], the platform-default arm does
    not run (the only call made is that one existence check), and the
    template path is [<source dir><sep>template.vcv]. *)
Theorem source_dir_override {W} (env : Collaborators W) cfg (s : State W)
    source_dir :
  CARDINAL_PLUGIN_SOURCE_DIR cfg = Some source_dir ->
  (system_exists env
     (system_join env (source_systemDir cfg source_dir) "res")
     (world s)).1 = Ok true ->
  exists s',
    resolve_paths env cfg s = Returns SourceDirBranch s'
    /\ systemDir (asset s') = source_systemDir cfg source_dir
    /\ templatePath s' = source_templatePath cfg source_dir
    /\ trace s'
       = EvExists (system_join env (source_systemDir cfg source_dir) "res")
           :: trace s.
Proof.
  intros Hsrc Hres. unfold resolve_paths. rewrite Hsrc.
  unfold bind, assign_asset, modify, get, exists_, invoke, join. simpl.
  fold (source_systemDir cfg source_dir). rewrite Hres. simpl.
  eexists. split; [reflexivity|]. by repeat split.
Qed.

Lemma source_dir_override_witness :
  exists s',
    resolve_paths (SimFS.collaborators SimFS.posix) cfg_source_dir
      (initial_state {[ "/src/Rack/res" ]})
    = Returns SourceDirBranch s'
    /\ systemDir (asset s') = "/src/Rack"
    /\ templatePath s' = "/src/template.vcv"
    /\ trace s' = [EvExists "/src/Rack/res"].
Proof.
  apply (source_dir_override (SimFS.collaborators SimFS.posix) cfg_source_dir
           (initial_state {[ "/src/Rack/res" ]}) "/src").
  - reflexivity.
  - vm_compute. reflexivity.
Defined.

(** C6 as stated fails: [/src/Rack/res] exists, [/src/template.vcv] does
    not, and the template path is set all the same. *)
Lemma source_dir_templatePath_counterexample :
("/src/template.vcv" ∉ ({[ "/src/Rack/res" ]} : gset string))
  /\ returned
       (resolve_paths (SimFS.collaborators SimFS.posix) cfg_source_dir
          (initial_state {[ "/src/Rack/res" ]}))
       (fun branch s =>
          branch = SourceDirBranch
          /\ templatePath s = "/src/template.vcv"
          /\ templatePath s <> EmptyString).
Proof.
  split; [set_solver|]. vm_compute. by repeat split.
Qed.

(** C6, amended.  Whenever the source-directory arm runs, the template
    path is set to [<source dir><sep>template.vcv], which is not empty,
    without a look at the file: the existence check of the [res]
    subfolder is the only call of the whole resolution. *)
Theorem source_dir_templatePath {W} (env : Collaborators W) cfg (s s' : State W) :
  resolve_paths env cfg s = Returns SourceDirBranch s' ->
  exists source_dir,
    CARDINAL_PLUGIN_SOURCE_DIR cfg = Some source_dir
    /\ templatePath s' = source_templatePath cfg source_dir
    /\ empty (templatePath s') = false
    /\ trace s'
       = EvExists (system_join env (source_systemDir cfg source_dir) "res")
           :: trace s.
Proof.
  intros (_ & source_dir & Hsrc & _ & _ & Ht & _ & Htr)%resolve_paths_Returns.
  exists source_dir. rewrite Ht. repeat split; try done.
  apply source_templatePath_not_empty.
Qed.

Lemma source_dir_templatePath_witness :
  returned
    (resolve_paths (SimFS.collaborators SimFS.posix) cfg_source_dir
       (initial_state {[ "/src/Rack/res" ]}))
    (fun branch s' =>
       branch = SourceDirBranch
       /\ exists source_dir,
            CARDINAL_PLUGIN_SOURCE_DIR cfg_source_dir = Some source_dir
            /\ templatePath s' = source_templatePath cfg_source_dir source_dir
            /\ empty (templatePath s') = false
            /\ trace s'
               = [EvExists
                    (SimFS.join_path
                       (source_systemDir cfg_source_dir source_dir) "res")]).
Proof.
  assert (Hb : result
                 (resolve_paths (SimFS.collaborators SimFS.posix)
                    cfg_source_dir (initial_state {[ "/src/Rack/res" ]}))
               = Some SourceDirBranch) by (vm_compute; reflexivity).
  apply returned_intro; [rewrite Hb; eauto|]. intros branch s' E.
  rewrite E in Hb. injection Hb as ->. split; [reflexivity|].
  apply (source_dir_templatePath _ _ _ _ E).
Defined.

Lemma init_subsystems_asset {W} (env : Collaborators W) :
  preserves asset (init_subsystems env).
Proof. unfold init_subsystems. frame. Qed.

(** C7.  For every configuration and every behaviour of the collaborators:
    when [main] has run up to the end of path resolution and the system
    dir is empty, the user dir, the bundle path and the template path are
    empty too. *)
Theorem empty_systemDir_all_empty {W} (env : Collaborators W) cfg (w : W)
    branch (s' : State W) :
  (init_subsystems env ;; resolve_paths env cfg) (initial_state w)
    = Returns branch s' ->
  systemDir (asset s') = EmptyString ->
  userDir (asset s') = EmptyString
  /\ bundlePath (asset s') = EmptyString
  /\ templatePath s' = EmptyString.
Proof.
  intros ([] & s1 & Hinit & Hres)%bind_Returns Hempty.
  assert (Hasset : asset s1 = asset (initial_state w))
    by (apply (init_subsystems_asset env); by rewrite Hinit).
  apply resolve_paths_Returns in Hres as (Huser & Hbranch).
  split; [congruence|]. destruct branch.
  - destruct Hbranch as (source_dir & _ & _ & Hsys & _).
    pose proof (source_systemDir_not_empty cfg source_dir) as Hne.
    rewrite <- Hsys, Hempty in Hne. discriminate.
  - destruct Hbranch as (Hd & Ht). unfold derived_from_systemDir in Hd.
    rewrite Hempty in Hd, Ht. simpl in Hd, Ht.
    rewrite Hasset in Hd. by split; [|apply Ht].
Qed.

Lemma empty_systemDir_all_empty_witness :
  returned
    ((init_subsystems (SimFS.collaborators SimFS.posix) ;;
      resolve_paths (SimFS.collaborators SimFS.posix) cfg_windows)
       (initial_state ∅))
    (fun _ s' =>
       systemDir (asset s') = EmptyString
       /\ userDir (asset s') = EmptyString
       /\ bundlePath (asset s') = EmptyString
       /\ templatePath s' = EmptyString).
Proof.
  assert (Hs : (fun s => systemDir (asset s))
                 <$> final
                       ((init_subsystems (SimFS.collaborators SimFS.posix) ;;
                         resolve_paths (SimFS.collaborators SimFS.posix)
                           cfg_windows) (initial_state ∅))
               = Some EmptyString) by (vm_compute; reflexivity).
  apply returned_intro; [vm_compute; eauto|]. intros branch s' E.
  rewrite E in Hs. injection Hs as Hs. split; [exact Hs|].
  apply (empty_systemDir_all_empty _ _ _ _ _ E Hs).
Defined.

(** C9.  In the source-directory arm the bundle path is not assigned: it
    is what it was before, empty when it was empty, although the system
    dir and the template path are set.  In the platform-default arm it
    is the system dir joined with [PluginManifests] when the system dir
    is not empty, and is not assigned otherwise. *)
Theorem bundlePath_only_in_platform_default {W} (env : Collaborators W) cfg
    (s : State W) branch (s' : State W) :
  resolve_paths env cfg s = Returns branch s' ->
  match branch with
  | SourceDirBranch =>
      bundlePath (asset s') = bundlePath (asset s)
      /\ (bundlePath (asset s) = EmptyString ->
          bundlePath (asset s') = EmptyString)
      /\ empty (systemDir (asset s')) = false
      /\ empty (templatePath s') = false
  | PlatformDefaultBranch =>
      if empty (systemDir (asset s'))
      then bundlePath (asset s') = bundlePath (asset s)
      else bundlePath (asset s')
           = system_join env (systemDir (asset s')) "PluginManifests"
  end.
Proof.
  intros (_ & Hbranch)%resolve_paths_Returns. destruct branch.
  - destruct Hbranch as (source_dir & _ & _ & -> & -> & Hb & _).
    split; [done|]. split; [congruence|].
    split; [apply source_systemDir_not_empty
           |apply source_templatePath_not_empty].
  - destruct Hbranch as (Hd & _). unfold derived_from_systemDir in Hd.
    destruct (empty (systemDir (asset s'))); [done | by destruct Hd].
Qed.

Lemma bundlePath_only_in_platform_default_witness :
  returned
    (resolve_paths (SimFS.collaborators SimFS.posix) cfg_source_dir
       (initial_state {[ "/src/Rack/res" ]}))
    (fun branch s' =>
       branch = SourceDirBranch
       /\ bundlePath (asset s') = EmptyString
       /\ (EmptyString = EmptyString -> bundlePath (asset s') = EmptyString)
       /\ empty (systemDir (asset s')) = false
       /\ empty (templatePath s') = false).
Proof.
  assert (Hb : result
                 (resolve_paths (SimFS.collaborators SimFS.posix)
                    cfg_source_dir (initial_state {[ "/src/Rack/res" ]}))
               = Some SourceDirBranch) by (vm_compute; reflexivity).
  apply returned_intro; [rewrite Hb; eauto|]. intros branch s' E.
  rewrite E in Hb. injection Hb as ->. split; [reflexivity|].
  apply (bundlePath_only_in_platform_default _ _ _ _ _ E).
Defined.

Lemma isolated_allocations_witness :
  exists l,
    allocations SimFS.posix 2 2 ∅ = Some l
    /\ l.*1 = ["/tmp/CardinalRemote.0001"; "/tmp/CardinalRemote.0002"]
    /\ NoDup l.*1
    /\ Forall (fun r => r.1 <> EmptyString /\ r.1 ∈ r.2) l.
Proof.
  apply (isolated_allocations SimFS.posix "/tmp" eq_refl eq_refl 2 2 ∅).
  - lia.
  - reflexivity.
  - intros i. apply not_elem_of_empty.
  - lia.
Defined.

(** ** The installation report (lines 141-151) *)

Section Warnings.
Context {W : Type} (env : Collaborators W) (cfg : BuildConfig).
Implicit Types s : State W.

Lemma emits_bind_head {A B} n (m : M W A) (k : A -> M W B) :
  emits_at_most n m -> (forall a, preserves warning_count (k a)) ->
  emits_at_most n (bind m k).
Proof.
  intros Hm Hk s s'. unfold bind.
  destruct (m s) as [a s1|s1|s1|] eqn:E; simpl.
  - intros H. rewrite (Hk a s1 s' H). apply Hm. by rewrite E.
  - intros [= <-]. apply Hm. by rewrite E.
  - intros [= <-]. apply Hm. by rewrite E.
  - discriminate.
Qed.

Lemma emits_bind_tail {A B} n (m : M W A) (k : A -> M W B) :
  preserves warning_count m -> (forall a, emits_at_most n (k a)) ->
  emits_at_most n (bind m k).
Proof.
  intros Hm Hk s s'. unfold bind.
  destruct (m s) as [a s1|s1|s1|] eqn:E; simpl.
  - intros H. rewrite <- (Hm s s1) by (by rewrite E). by apply (Hk a).
  - intros [= <-]. rewrite (Hm s s1) by (by rewrite E). lia.
  - intros [= <-]. rewrite (Hm s s1) by (by rewrite E). lia.
  - discriminate.
Qed.

Lemma init_subsystems_quiet : preserves warning_count (init_subsystems env).
Proof. unfold init_subsystems. frame. Qed.

Lemma resolve_paths_quiet : preserves warning_count (resolve_paths env cfg).
Proof. unfold resolve_paths, platform_default. frame. Qed.

Lemma log_environment_quiet : preserves warning_count (log_environment env).
Proof. unfold log_environment. frame. Qed.

Lemma search_quiet fuel tmp i : preserves warning_count (search env fuel tmp i).
Proof.
  revert i. induction fuel as [|fuel IH]; intros i; cbn [search]; frame.
  apply IH.
Qed.

Lemma create_autosavePath_quiet fuel :
  preserves warning_count (create_autosavePath env fuel).
Proof. unfold create_autosavePath. frame. apply search_quiet. Qed.

Lemma construct_context_quiet : preserves warning_count (construct_context env).
Proof. unfold construct_context. frame. Qed.

Lemma run_ui_quiet : preserves warning_count (run_ui env).
Proof. unfold run_ui. frame. Qed.

Lemma teardown_quiet : preserves warning_count (teardown env).
Proof. unfold teardown. frame. Qed.

Lemma destroy_locals_quiet : preserves warning_count (destroy_locals env).
Proof. unfold destroy_locals. frame. Qed.

(** The state the report ends in. *)
Lemma report_installation_final s s' :
  final (report_installation env s) = Some s' ->
  if empty (systemDir (asset s))
  then s' = add_event (EvStderr FailedToLocateBundle) s
  else
    match (system_exists env (systemDir (asset s)) (world s)).1 with
    | Ok false =>
        s' = add_event (EvStderr (SystemDirDoesNotExist (systemDir (asset s))))
               (probed env (systemDir (asset s)) s)
    | _ => s' = probed env (systemDir (asset s)) s
    end.
Proof.
  unfold report_installation, bind, get, d_stderr2, log, modify, exists_,
    invoke, ret, probed.
  destruct (empty (systemDir (asset s))); simpl.
  - by intros [= <-].
  - destruct (system_exists env _ _).1 as [[]|]; simpl; by intros [= <-].
Qed.

Lemma report_installation_emits : emits_at_most 1 (report_installation env).
Proof.
  intros s s' H%report_installation_final. unfold warning_count.
  destruct (empty (systemDir (asset s))); [subst; simpl; lia|].
  destruct (system_exists env _ _).1 as [[]|]; subst; simpl; lia.
Qed.

Lemma main_emits fuel : emits_at_most 1 (main env cfg fuel).
Proof.
  unfold main. apply emits_bind_head.
  - unfold startup.
    apply emits_bind_tail; [apply init_subsystems_quiet | intros _].
    apply emits_bind_tail; [apply resolve_paths_quiet | intros _].
    apply emits_bind_tail; [apply log_environment_quiet | intros _].
    apply emits_bind_head; [apply report_installation_emits | intros _].
    apply preserves_bind; [frame | intros _].
    apply preserves_bind; [frame | intros _].
    apply preserves_bind; [frame | intros _].
    apply preserves_bind; [frame | intros _].
    apply preserves_bind;
      [apply create_autosavePath_quiet | intros _; apply construct_context_quiet].
  - intros _.
    apply preserves_bind; [apply run_ui_quiet | intros _].
    apply preserves_bind; [apply teardown_quiet | intros _].
    apply preserves_bind; [apply destroy_locals_quiet | intros _].
    apply preserves_ret.
Qed.

(** C10.  The report emits the warning of the empty system dir without
    asking the file system, when the system dir is empty; otherwise it
    asks once whether the system dir exists and emits the warning of the
    missing directory, and only that one, when the answer is no.  So each
    run of [main], however it ends, has at most one warning in its
    trace. *)
Theorem at_most_one_installation_warning fuel (w : W) s :
  (forall s',
     final (report_installation env s) = Some s' ->
     if empty (systemDir (asset s))
     then trace s' = EvStderr FailedToLocateBundle :: trace s
          /\ world s' = world s
     else exists emitted,
            trace s' = emitted ++ EvExists (systemDir (asset s)) :: trace s
            /\ (emitted = []
                \/ emitted
                   = [EvStderr (SystemDirDoesNotExist (systemDir (asset s)))]
                   /\ (system_exists env (systemDir (asset s)) (world s)).1
                      = Ok false))
  /\ (forall s',
        final (main env cfg fuel (initial_state w)) = Some s' ->
        (length (warnings (trace s')) <= 1)%nat).
Proof.
  split.
  - intros s' H%report_installation_final.
    destruct (empty (systemDir (asset s))); [by subst|].
    destruct (system_exists env _ _).1 as [[]|] eqn:Hex; subst; simpl.
    + exists []. split; [done | by left].
    + eexists [_]. split; [done | by right].
    + exists []. split; [done | by left].
  - intros s' H. apply main_emits in H. unfold warning_count in H.
    simpl in H. lia.
Qed.
End Warnings.

(** ** The plugin context (lines 180-200) *)

Section ContextGraph.
Context {W : Type} (env : Collaborators W) (cfg : BuildConfig).
Implicit Types s : State W.

(** What a returning step leaves: the world and the trace move on, the
    rest is where the step put it. *)
Lemma get_Returns s a s1 : get s = Returns a s1 -> a = s /\ s1 = s.
Proof. by intros [= <- <-]. Qed.

Lemma ret_Returns {A} (x : A) s a s1 : ret x s = Returns a s1 -> a = x /\ s1 = s.
Proof. by intros [= <- <-]. Qed.

Lemma modify_Returns f s a s1 : modify f s = Returns a s1 -> s1 = f s.
Proof. by intros [= <-]. Qed.

Lemma assign_context_Returns f s a s1 :
  assign_context f s = Returns a s1 -> s1 = set_context (f (context s)) s.
Proof. by intros [= <-]. Qed.

Lemma assign_asset_Returns f s a s1 :
  assign_asset f s = Returns a s1 -> s1 = set_asset (f (asset s)) s.
Proof. by intros [= <-]. Qed.

Lemma deref_Returns p s l s1 :
  deref p s = Returns l s1 -> p = Some l /\ s1 = s.
Proof. destruct p; simpl; [by intros [= <- <-] | discriminate]. Qed.

Lemma invoke_Returns {A} (op : W -> exc A * W) e s a s1 :
  invoke op e s = Returns a s1 ->
  (op (world s)).1 = Ok a
  /\ s1 = add_event e (set_world (op (world s)).2 s).
Proof.
  unfold invoke. destruct (op (world s)).1; [|discriminate].
  by intros [= <- <-].
Qed.

Lemma call_Returns c s a s1 :
  call env c s = Returns a s1 ->
  exists w', s1 = add_event (EvCall c) (set_world w' s).
Proof. intros [_ ->]%invoke_Returns. eauto. Qed.

Lemma new_Returns c o s l s1 :
  new env c o s = Returns l s1 ->
  exists w',
    l = next_loc s
    /\ s1 = set_heap (<[next_loc s := o]> (heap s)) (Pos.succ (next_loc s))
             (add_event (EvCall c) (set_world w' s)).
Proof.
  unfold new. intros (? & s2 & [w' ->]%call_Returns & H)%bind_Returns.
  unfold bind, get, modify, ret in H. simpl in H. injection H as <- <-.
  by exists w'.
Qed.

Lemma store_Returns l f s a s1 :
  store l f s = Returns a s1 ->
  exists o o',
    heap s !! l = Some o /\ f o = Some o'
    /\ s1 = set_heap (<[l := o']> (heap s)) (next_loc s) s.
Proof.
  unfold store, bind, get. simpl.
  destruct (heap s !! l) as [o|]; simpl; [|discriminate].
  destruct (f o) as [o'|] eqn:E; simpl; [|discriminate].
  intros [= <-]. by exists o, o'.
Qed.
End ContextGraph.

(** Runs a returning computation one step forward in hypothesis [H]. *)
Ltac normalise_states :=
  unfold set_context, set_heap, set_world, add_event, set_threadContext,
    set_autosavePath, set_templatePath, set_asset in *;
  cbn [context heap next_loc threadContext autosavePath templatePath asset
       world trace] in *.

Ltac forward H :=
  let a := fresh "a" in
  let s1 := fresh "s" in
  let H1 := fresh "H" in
  apply bind_Returns in H as (a & s1 & H1 & H);
  first
    [ apply get_Returns in H1 as [-> ->]
    | apply ret_Returns in H1 as [-> ->]
    | apply assign_context_Returns in H1 as ->
    | apply assign_asset_Returns in H1 as ->
    | apply modify_Returns in H1 as ->
    | apply deref_Returns in H1 as [H1 ->]
    | apply invoke_Returns in H1 as [_ ->]
    | apply new_Returns in H1 as (? & -> & ->)
    | apply store_Returns in H1 as (? & ? & ? & H1 & ->) ];
  normalise_states.

Section ContextWiring.
Context {W : Type} (env : Collaborators W) (cfg : BuildConfig).
Implicit Types s : State W.

Lemma write_rootWidget_Some v o o' :
  write_rootWidget v o = Some o' -> o' = EventState v.
Proof. destruct o; simpl; congruence. Qed.

Lemma construct_context_wired s s' :
  construct_context env s = Returns tt s' -> wired s'.
Proof.
  unfold construct_context, contextSet. intros H.
  do 34 forward H.
  apply call_Returns in H as [? ->].
  apply write_rootWidget_Some in H4 as ->.
  unfold wired, add_event, set_world. cbn.
  split; [reflexivity|]. eexists _, _.
  split; [reflexivity|]. split; [reflexivity|]. split.
  - rewrite lookup_insert_ne by lia. apply lookup_insert_eq.
  - rewrite lookup_insert_ne by lia. rewrite lookup_insert_ne by lia.
    apply lookup_insert_eq.
Qed.

Lemma run_ui_keeps_wiring :
  preserves (fun s => (threadContext s, context s, heap s)) (run_ui env).
Proof. unfold run_ui. frame. Qed.

Lemma startup_Returns fuel s s' :
  startup env cfg fuel s = Returns tt s' ->
  exists s1, construct_context env s1 = Returns tt s'.
Proof.
  unfold startup. intros H.
  do 9 (apply bind_Returns in H as (? & ? & _ & H)). eauto.
Qed.

(** C4.  In every run that gets through startup, and so reaches the UI
    loop, the [rootWidget] of the event state of the context is the
    scene of the context, and the context registered with
    [rack::contextSet] is the local [context] of [main]; the calls that
    set up and run the UI leave this as it is, however they end. *)
Theorem context_graph_wired fuel (w : W) s :
  startup env cfg fuel (initial_state w) = Returns tt s ->
  wired s
  /\ (forall s', final (run_ui env s) = Some s' -> wired s').
Proof.
  intros [s1 H%construct_context_wired]%startup_Returns.
  split; [done|]. intros s' Hui%run_ui_keeps_wiring.
  injection Hui as Ht Hc Hh. unfold wired in *. by rewrite Ht, Hc, Hh.
Qed.
End ContextWiring.

(** ** Teardown (lines 216-235) *)

Section Teardown.
Context {W : Type} (env : Collaborators W) (cfg : BuildConfig).
Implicit Types s : State W.

Lemma teardown_Returns s s' :
  teardown env s = Returns tt s' ->
  asset s' = cleared
  /\ templatePath s' = templatePath s
  /\ autosavePath s' = autosavePath s
  /\ (empty (autosavePath s) = false ->
      EvRemoveRecursively (autosavePath s) ∈ trace s').
Proof.
  unfold teardown. intros H.
  do 4 forward H.
  apply bind_Returns in H as (? & s1 & Hrm & H).
  destruct (empty (autosavePath s)) eqn:Hempty; cbn [negb] in Hrm.
  - apply ret_Returns in Hrm as [_ ->].
    unfold INFO, log in H. do 9 forward H.
    apply call_Returns in H as [? ->]. normalise_states. cbn.
    by repeat split.
  - apply bind_Returns in Hrm as (? & s2 & [_ ->]%invoke_Returns & [_ ->]%ret_Returns).
    unfold INFO, log in H. do 9 forward H.
    apply call_Returns in H as [? ->]. normalise_states. cbn.
    repeat split. intros _. rewrite !elem_of_cons. tauto.
Qed.

(** After path resolution nothing assigns the local [templatePath]. *)
Lemma after_resolution_templatePath fuel :
  preserves templatePath
    (log_environment env ;;
     report_installation env ;;
     INFO "Initializing plugins" EmptyString ;;
     call env initStaticPlugins ;;
     INFO "Initializing plugin browser DB" EmptyString ;;
     call env browserInit ;;
     create_autosavePath env fuel ;;
     construct_context env).
Proof.
  unfold log_environment, report_installation, create_autosavePath,
    construct_context.
  assert (Hsearch : forall tmp i, preserves templatePath (search env fuel tmp i)).
  { induction fuel as [|n IH]; intros tmp i; cbn [search]; frame. apply IH. }
  frame. apply Hsearch.
Qed.

Lemma run_ui_templatePath : preserves templatePath (run_ui env).
Proof. unfold run_ui. frame. Qed.

(** The closing brace adds its four calls and touches nothing that
    [main] owns. *)
Lemma destroy_locals_Returns s s' :
  destroy_locals env s = Returns tt s' ->
  asset s' = asset s
  /\ templatePath s' = templatePath s
  /\ autosavePath s' = autosavePath s
  /\ exists w',
       s' = add_event (EvCall destroy_CardinalPluginContext)
              (add_event (EvCall destroy_Application)
                 (add_event (EvCall destroy_Window)
                    (add_event (EvCall delete_CardinalRemoteUI)
                       (set_world w' s)))).
Proof.
  unfold destroy_locals. intros H. do 3 forward H.
  apply call_Returns in H as [w' ->]. normalise_states. cbn.
  repeat split. by exists w'.
Qed.

Lemma main_Returns fuel s c s' :
  main env cfg fuel s = Returns c s' ->
  c = 0
  /\ exists branch s1 s2 s3 s4,
       (init_subsystems env ;; resolve_paths env cfg) s = Returns branch s1
       /\ templatePath s2 = templatePath s1
       /\ run_ui env s2 = Returns tt s3
       /\ teardown env s3 = Returns tt s4
       /\ destroy_locals env s4 = Returns tt s'.
Proof.
  unfold main, startup. intros H.
  apply bind_Returns in H as ([] & s2 & Hstart & H).
  apply bind_Returns in H as ([] & s3 & Hui & H).
  apply bind_Returns in H as ([] & s4 & Htear & H).
  apply bind_Returns in H as ([] & s5 & Hdtor & [-> ->]%ret_Returns).
  split; [reflexivity|].
  apply bind_Returns in Hstart as ([] & s0 & Hinit & Hstart).
  apply bind_Returns in Hstart as (branch & s1 & Hres & Hrest).
  exists branch, s1, s2, s3, s4. repeat split; try done.
  - unfold bind. by rewrite Hinit.
  - apply (after_resolution_templatePath fuel s1 s2). by rewrite Hrest.
Qed.
End Teardown.

Lemma preserves_invoke_op {W X A} (f : State W -> X) (op : W -> exc A * W)
    (e : Event) :
  (forall s, f (add_event e (set_world (op (world s)).2 s)) = f s) ->
  preserves f (invoke op e).
Proof.
  intros Hf s s'. unfold invoke.
  destruct (op (world s)).1; intros [= <-]; apply Hf.
Qed.

Lemma sim_teardown_removes b (s s' : State (gset string)) :
  teardown (SimFS.collaborators b) s = Returns tt s' ->
  empty (autosavePath s) = false ->
  autosavePath s ∉ world s'.
Proof.
  unfold teardown. intros H Hempty.
  do 4 forward H.
  apply bind_Returns in H as (? & s1 & Hrm & H).
  rewrite Hempty in Hrm. cbn [negb] in Hrm.
  apply bind_Returns
    in Hrm as (? & s2 & [_ ->]%invoke_Returns & [_ ->]%ret_Returns).
  unfold INFO, log in H. do 9 forward H.
  apply invoke_Returns in H as [_ ->]. normalise_states. cbn.
  intros [Hunder _]%elem_of_filter. unfold SimFS.under in Hunder.
  by rewrite bool_decide_eq_true_2 in Hunder.
Qed.

(** The destructors leave the simulated file system alone. *)
Lemma sim_destroy_locals_world b :
  preserves (fun s => (world s, autosavePath s))
    (destroy_locals (SimFS.collaborators b)).
Proof.
  unfold destroy_locals, call.
  repeat (apply preserves_bind;
            [apply preserves_invoke_op; reflexivity | intros _]).
  apply preserves_invoke_op; reflexivity.
Qed.

(** ** The claims on teardown and on the exit code *)

(** C5 as stated fails: after a run that returns, the template path is
    not empty. *)
Lemma teardown_clears_counterexample :
  returned
    (main (SimFS.collaborators SimFS.posix) cfg_installed 1 (initial_state ∅))
    (fun _ s' =>
       templatePath s' = "/usr/local/share/cardinal/template.vcv"
       /\ templatePath s' <> EmptyString).
Proof. vm_compute. by split. Qed.

(** C5, amended.  After a run in which [main] returns, the three asset
    paths (system dir, user dir, bundle path) are empty, and the scratch
    path, if it is not empty, has been handed to [removeRecursively]; in
    the simulated file system it no longer exists.  The template path is
    not cleared: it is still what path resolution made it. *)
Theorem teardown_clears cfg fuel :
  (forall W (env : Collaborators W) (w : W) c s',
     main env cfg fuel (initial_state w) = Returns c s' ->
     asset s' = cleared
     /\ (empty (autosavePath s') = false ->
         EvRemoveRecursively (autosavePath s') ∈ trace s')
     /\ exists branch s1,
          (init_subsystems env ;; resolve_paths env cfg) (initial_state w)
            = Returns branch s1
          /\ templatePath s' = templatePath s1)
  /\ (forall b fs c s',
        main (SimFS.collaborators b) cfg fuel (initial_state fs)
          = Returns c s' ->
        empty (autosavePath s') = false ->
        autosavePath s' ∉ world s').
Proof.
  split.
  - intros W env w c s'
      (_ & branch & s1 & s2 & s3 & s4 & Hres & Ht & Hui & Htear & Hdtor)
      %main_Returns.
    apply teardown_Returns in Htear as (Hasset & Ht' & Ha & Hrm).
    apply destroy_locals_Returns in Hdtor as (Hasset' & Ht'' & Ha' & w' & ->).
    cbn in *. split; [done|]. split.
    + intros Hne. rewrite Ha in *. rewrite !elem_of_cons. do 4 right.
      by apply Hrm.
    + exists branch, s1. split; [done|].
      rewrite Ht', <- Ht.
      apply (run_ui_templatePath env s2 s3). by rewrite Hui.
  - intros b fs c s'
      (_ & branch & s1 & s2 & s3 & s4 & _ & _ & _ & Htear & Hdtor)
      %main_Returns Hempty.
    apply teardown_Returns in Htear as Hfields.
    destruct Hfields as (_ & _ & Ha & _).
    assert (Hkeep : (world s', autosavePath s') = (world s4, autosavePath s4))
      by (apply (sim_destroy_locals_world b); by rewrite Hdtor).
    injection Hkeep as -> Ha'. rewrite Ha', Ha in *.
    by apply (sim_teardown_removes b s3).
Qed.

Lemma teardown_clears_witness :
  returned
    (main (SimFS.collaborators SimFS.posix) cfg_installed 1 (initial_state ∅))
    (fun _ s' =>
       autosavePath s' = "/tmp/CardinalRemote.0001"
       /\ (autosavePath s' ∉ world s')
       /\ asset s' = cleared).
Proof.
  assert (Ha : autosavePath
                 <$> final
                       (main (SimFS.collaborators SimFS.posix) cfg_installed 1
                          (initial_state ∅))
               = Some "/tmp/CardinalRemote.0001") by (vm_compute; reflexivity).
  apply returned_intro; [vm_compute; eauto|]. intros c s' E.
  rewrite E in Ha. injection Ha as Ha. split; [exact Ha|]. split.
  - apply (proj2 (teardown_clears cfg_installed 1) _ _ _ _ E).
    rewrite Ha. reflexivity.
  - apply (proj1 (teardown_clears cfg_installed 1) _ _ _ _ _ E).
Defined.

(** C8.  Whenever [main] returns, it returns 0. *)
Theorem exit_code_zero {W} (env : Collaborators W) cfg fuel (s : State W) c s' :
  main env cfg fuel s = Returns c s' -> c = 0.
Proof. by intros [? _]%main_Returns. Qed.

(** A run with an installation warning and without a scratch directory
    returns 0 as well. *)
Lemma exit_code_zero_witness :
  returned
    (main (SimFS.collaborators read_only) cfg_windows 1 (initial_state ∅))
    (fun c s' =>
       c = 0
       /\ warnings (trace s') = [FailedToLocateBundle]
       /\ autosavePath s' = EmptyString).
Proof.
  assert (Hw : (fun s => (warnings (trace s), autosavePath s))
                 <$> final
                       (main (SimFS.collaborators read_only) cfg_windows 1
                          (initial_state ∅))
               = Some ([FailedToLocateBundle], EmptyString))
    by (vm_compute; reflexivity).
  apply returned_intro; [vm_compute; eauto|]. intros c s' E.
  rewrite E in Hw. injection Hw as Hw Ha. split; [|split; assumption].
  apply (exit_code_zero _ _ _ _ _ _ E).
Defined.

(** ** Further concrete runs *)

(** On a read-only temp root, where the creation throws, and in a world
    whose existence check throws, the search returns with the empty
    path, the handler having run right after the call that threw. *)
Lemma create_autosavePath_hardened_witness :
  (exists s',
     create_autosavePath (SimFS.collaborators read_only) 1 (initial_state ∅)
     = Returns tt s'
     /\ autosavePath s' = EmptyString
     /\ trace s'
        = [EvSafeException "create unique temporary path";
           EvCreateDirectories "/tmp/CardinalRemote.0001";
           EvExists "/tmp/CardinalRemote.0001"; EvGetTempDirectory])
  /\ (exists s',
        create_autosavePath (Stub.collaborators Throw) 1 (initial_state tt)
        = Returns tt s'
        /\ autosavePath s' = EmptyString
        /\ trace s'
           = [EvSafeException "create unique temporary path";
              EvExists "/tmp/CardinalRemote.0001"; EvGetTempDirectory]).
Proof.
  split.
  - pose proof
      (proj1 (proj2 (proj2 (proj2
         (create_autosavePath_hardened (SimFS.collaborators read_only) 1
            (initial_state ∅)))))
         "/tmp" 1
         (entered (SimFS.collaborators read_only) (initial_state ∅))
         eq_refl (skips_done _ _ _ _) (Nat.le_refl _) eq_refl) as H.
    destruct H as [H Ha]. eexists. split; [exact H|]. split; reflexivity.
  - pose proof
      (proj1 (proj2 (proj2
         (create_autosavePath_hardened (Stub.collaborators Throw) 1
            (initial_state tt))))
         "/tmp" 1
         (entered (Stub.collaborators Throw) (initial_state tt))
         eq_refl (skips_done _ _ _ _) (Nat.le_refl _) eq_refl) as H.
    destruct H as [H Ha]. eexists. split; [exact H|]. split; reflexivity.
Defined.

Lemma context_graph_wired_witness :
  returned
    (startup (SimFS.collaborators SimFS.posix) cfg_installed 1
       (initial_state ∅))
    (fun _ s =>
       wired s
       /\ (forall s',
             final (run_ui (SimFS.collaborators SimFS.posix) s) = Some s' ->
             wired s')).
Proof.
  apply returned_intro; [vm_compute; eauto|]. intros [] s E.
  apply (context_graph_wired _ _ _ _ _ E).
Defined.

(** An installed build whose system dir is missing: one warning. *)
Lemma at_most_one_installation_warning_witness :
  returned
    (main (SimFS.collaborators SimFS.posix) cfg_installed 1 (initial_state ∅))
    (fun _ s' =>
       warnings (trace s')
       = [SystemDirDoesNotExist "/usr/local/share/cardinal"]
       /\ (length (warnings (trace s')) <= 1)%nat).
Proof.
  assert (Hw : (fun s => warnings (trace s))
                 <$> final
                       (main (SimFS.collaborators SimFS.posix) cfg_installed 1
                          (initial_state ∅))
               = Some [SystemDirDoesNotExist "/usr/local/share/cardinal"])
    by (vm_compute; reflexivity).
  apply returned_intro; [vm_compute; eauto|]. intros c s' E.
  rewrite E in Hw. injection Hw as Hw. split; [exact Hw|].
  apply (proj2 (at_most_one_installation_warning
                  (SimFS.collaborators SimFS.posix) cfg_installed 1 ∅
                  (initial_state ∅)) s').
  rewrite E. reflexivity.
Defined.

(** * Further properties *)

(** ** The name in the buffer *)

Section Names.
Import Printf.

Lemma digits_w_head w n :
  digits_w (S w) n = (n / 10 ^ Z.of_nat w) mod 10 :: digits_w w n.
Proof.
  revert n. induction w as [|w IH]; intros n.
  - simpl. by rewrite Z.div_1_r.
  - change (digits_w (S (S w)) n)
      with (digits_w (S w) (n / 10) ++ [n mod 10]).
    rewrite IH. cbn [app digits_w]. f_equal. f_equal.
    rewrite Nat2Z.inj_succ, Z.pow_succ_r by lia.
    rewrite Z.div_div by lia. reflexivity.
Qed.

Lemma strip_zeros_nonzero keep d l : d <> 0 -> strip_zeros keep (d :: l) = d :: l.
Proof. intros Hd. destruct d; [congruence | reflexivity | reflexivity]. Qed.

Lemma strip_zeros_keeps keep l :
  (keep <= length l)%nat -> (keep <= length (strip_zeros keep l))%nat.
Proof.
  induction l as [|d l IH]; [done|]. intros Hlen.
  cbn [strip_zeros]. destruct d; try done.
  destruct (Nat.ltb_spec keep (length (0 :: l))); [|done].
  apply IH. simpl in *. lia.
Qed.

Lemma string_of_digits_app l m :
  string_of_digits (l ++ m) = string_of_digits l +:+ string_of_digits m.
Proof.
  induction l as [|d l IH]; [reflexivity|].
  change (String (digit_char d) (string_of_digits (l ++ m))
          = String (digit_char d) (string_of_digits l +:+ string_of_digits m)).
  by rewrite IH.
Qed.

Lemma string_take_app (a b : string) :
  string_take (String.length a) (a +:+ b) = a.
Proof.
  induction a as [|c a IH]; [by destruct b|].
  change (String c (string_take (String.length a) (a +:+ b)) = String c a).
  by rewrite IH.
Qed.

Lemma string_append_assoc (a b c : string) : (a +:+ b) +:+ c = a +:+ b +:+ c.
Proof.
  induction a as [|x a IH]; [reflexivity|].
  change (String x ((a +:+ b) +:+ c) = String x (a +:+ b +:+ c)).
  by rewrite IH.
Qed.

(** The eight digits of a counter with eight digits. *)
Lemma fmt_04d_eight i :
  10 ^ 7 <= i < 10 ^ 8 -> fmt_04d i = string_of_digits (digits_w 8 i).
Proof.
  intros Hi. unfold fmt_04d. destruct (Z.ltb_spec i 0); [lia|].
  rewrite (digits_w_small 9) by (change (Z.of_nat 9) with 9; lia).
  rewrite (digits_w_small 8) by (change (Z.of_nat 8) with 8; lia).
  rewrite !strip_zeros_zero by (rewrite ?length_cons, length_digits_w; lia).
  rewrite (digits_w_head 7). rewrite strip_zeros_nonzero; [reflexivity|].
  change (Z.of_nat 7) with 7.
  assert (1 <= i / 10 ^ 7 < 10).
  { split; [apply Z.div_le_lower_bound; lia
           |apply Z.div_lt_upper_bound; lia]. }
  rewrite Z.mod_small; lia.
Qed.

(** For a counter below [10^8] the buffer holds the prefix and then the
    decimal digits of the counter, most significant first: at least four
    of them (zeros in front of a short one) and at most eight. *)
Theorem uidBuf_digits i :
  0 <= i < 10 ^ 8 ->
  exists ds,
    uidBuf i = "CardinalRemote." +:+ string_of_digits ds
    /\ Forall is_digit ds
    /\ value ds = i
    /\ (4 <= length ds <= 8)%nat.
Proof.
  intros Hi. exists (strip_zeros 4 (digits_w 10 i)).
  split; [|split; [|split]].
  - rewrite uidBuf_exact by done. unfold fmt_04d.
    destruct (Z.ltb_spec i 0); [lia | reflexivity].
  - apply strip_zeros_digits, digits_w_digits.
  - rewrite value_strip_zeros, value_digits_w.
    change (Z.of_nat 10) with 10. rewrite Z.mod_small; lia.
  - split.
    + apply strip_zeros_keeps. rewrite length_digits_w. lia.
    + pose proof (length_fmt_04d i Hi) as Hlen. unfold fmt_04d in Hlen.
      destruct (Z.ltb_spec i 0); [lia|].
      by rewrite length_string_of_digits in Hlen.
Qed.

Lemma uidBuf_digits_witness :
  exists ds,
    uidBuf 42 = "CardinalRemote." +:+ string_of_digits ds
    /\ Forall is_digit ds
    /\ value ds = 42
    /\ (4 <= length ds <= 8)%nat.
Proof. apply (uidBuf_digits 42). lia. Defined.

(** From nine digits on the last digit of the counter does not reach the
    buffer: the ten counters [10 * i + d] get the name of counter [i]. *)
Theorem uidBuf_collision i d :
  10 ^ 7 <= i < 10 ^ 8 -> 0 <= d < 10 -> uidBuf (10 * i + d) = uidBuf i.
Proof.
  intros Hi Hd. rewrite (uidBuf_exact i) by lia.
  rewrite (fmt_04d_eight i) by done.
  unfold uidBuf, snprintf, fmt_04d.
  destruct (Z.ltb_spec (10 * i + d) 0); [lia|].
  change (digits_w 10 (10 * i + d))
    with (digits_w 9 ((10 * i + d) / 10) ++ [(10 * i + d) mod 10]).
  replace ((10 * i + d) / 10) with i
    by (apply Z.div_unique with d; lia).
  rewrite (digits_w_small 8) by (change (Z.of_nat 8) with 8; lia).
  change ((0 :: digits_w 8 i) ++ [(10 * i + d) mod 10])
    with (0 :: (digits_w 8 i ++ [(10 * i + d) mod 10])).
  rewrite strip_zeros_zero
    by (rewrite length_app, length_digits_w; simpl; lia).
  rewrite (digits_w_head 7).
  change (((i / 10 ^ Z.of_nat 7) mod 10 :: digits_w 7 i)
            ++ [(10 * i + d) mod 10])
    with ((i / 10 ^ Z.of_nat 7) mod 10
            :: (digits_w 7 i ++ [(10 * i + d) mod 10])).
  rewrite strip_zeros_nonzero.
  - change ((i / 10 ^ Z.of_nat 7) mod 10
              :: (digits_w 7 i ++ [(10 * i + d) mod 10]))
      with (((i / 10 ^ Z.of_nat 7) mod 10 :: digits_w 7 i)
              ++ [(10 * i + d) mod 10]).
    rewrite <- (digits_w_head 7), string_of_digits_app.
    rewrite <- string_append_assoc.
    replace (uidBuf_size - 1)%nat
      with (String.length ("CardinalRemote." +:+ string_of_digits (digits_w 8 i))).
    + apply string_take_app.
    + rewrite string_length_append, length_string_of_digits, length_digits_w.
      reflexivity.
  - change (Z.of_nat 7) with 7.
    assert (1 <= i / 10 ^ 7 < 10).
    { split; [apply Z.div_le_lower_bound; lia
             |apply Z.div_lt_upper_bound; lia]. }
    rewrite Z.mod_small; lia.
Qed.

Lemma uidBuf_collision_witness :
  uidBuf (10 * 12345678 + 9) = uidBuf 12345678.
Proof. apply (uidBuf_collision 12345678 9); lia. Defined.
End Names.

(** ** Path resolution along each arm *)

Section Arms.
Context {W : Type} (env : Collaborators W) (cfg : BuildConfig).
Implicit Types s : State W.

(** [platform_default] where the system dir is a constant of the build. *)
Lemma platform_default_fixed s dir :
  ARCH cfg <> ARCH_WIN ->
  dir = match ARCH cfg with
        | ARCH_MAC => "/Library/Application Support/Cardinal"
        | _ => CARDINAL_PLUGIN_PREFIX cfg +:+ "/share/cardinal"
        end ->
  platform_default env cfg s
  = Returns tt
      (set_templatePath (system_join env dir "template.vcv")
         (set_asset
            (set_bundlePath (system_join env dir "PluginManifests")
               (set_systemDir dir (asset s))) s)).
Proof.
  intros Harch ->. unfold platform_default.
  unfold bind, assign_asset, modify, get, join, ret.
  destruct (ARCH cfg); [| done |]; simpl.
  - reflexivity.
  - rewrite empty_append, andb_false_r. reflexivity.
Qed.

(** Without a source directory, on every platform but Windows: the system
    dir is the install location of the build, the user dir is the same,
    the bundle path and the template path are joined to it, and the file
    system is not asked anything. *)
Theorem install_location_paths s dir :
  CARDINAL_PLUGIN_SOURCE_DIR cfg = None ->
  ARCH cfg <> ARCH_WIN ->
  dir = match ARCH cfg with
        | ARCH_MAC => "/Library/Application Support/Cardinal"
        | _ => CARDINAL_PLUGIN_PREFIX cfg +:+ "/share/cardinal"
        end ->
  exists s',
    resolve_paths env cfg s = Returns PlatformDefaultBranch s'
    /\ asset s'
       = {| systemDir := dir; userDir := dir;
            bundlePath := system_join env dir "PluginManifests" |}
    /\ templatePath s' = system_join env dir "template.vcv"
    /\ world s' = world s
    /\ trace s' = trace s.
Proof.
  intros Hsrc Harch Hdir. unfold resolve_paths. rewrite Hsrc.
  unfold bind at 1 2 3. unfold modify at 1. unfold bind at 1.
  rewrite (platform_default_fixed _ dir) by done.
  unfold bind, get, assign_asset, modify, ret. simpl.
  eexists. split; [reflexivity|]. by repeat split.
Qed.

(** With a source directory whose [Rack/res] is missing, on every
    platform but Windows: the platform-default arm runs and the install
    location replaces the system dir taken from the source directory. *)
Theorem source_dir_missing_falls_back s source_dir dir :
  CARDINAL_PLUGIN_SOURCE_DIR cfg = Some source_dir ->
  (system_exists env
     (system_join env (source_systemDir cfg source_dir) "res")
     (world s)).1 = Ok false ->
  ARCH cfg <> ARCH_WIN ->
  dir = match ARCH cfg with
        | ARCH_MAC => "/Library/Application Support/Cardinal"
        | _ => CARDINAL_PLUGIN_PREFIX cfg +:+ "/share/cardinal"
        end ->
  exists s',
    resolve_paths env cfg s = Returns PlatformDefaultBranch s'
    /\ asset s'
       = {| systemDir := dir; userDir := dir;
            bundlePath := system_join env dir "PluginManifests" |}
    /\ templatePath s' = system_join env dir "template.vcv".
Proof.
  intros Hsrc Hres Harch Hdir. unfold resolve_paths. rewrite Hsrc.
  unfold bind at 1 2 3. unfold modify at 1, assign_asset at 1, modify at 1.
  unfold bind at 1 2. unfold get at 1. unfold bind at 1.
  unfold exists_, invoke, join. simpl.
  fold (source_systemDir cfg source_dir). rewrite Hres.
  unfold bind at 1. rewrite (platform_default_fixed _ dir) by done.
  unfold bind, get, assign_asset, modify, ret. simpl.
  eexists. split; [reflexivity|]. by repeat split.
Qed.

(** On Windows without a source directory: when the query for the common
    program files answers a non-empty path, the system dir is that path
    joined with [Cardinal]. *)
Theorem windows_program_files s commonprogfiles :
  CARDINAL_PLUGIN_SOURCE_DIR cfg = None ->
  ARCH cfg = ARCH_WIN ->
  (getSpecialPath_CommonProgramFiles env (world s)).1 = Ok commonprogfiles ->
  empty commonprogfiles = false ->
  empty (system_join env commonprogfiles "Cardinal") = false ->
  exists s',
    resolve_paths env cfg s = Returns PlatformDefaultBranch s'
    /\ asset s'
       = {| systemDir := system_join env commonprogfiles "Cardinal";
            userDir := system_join env commonprogfiles "Cardinal";
            bundlePath :=
              system_join env (system_join env commonprogfiles "Cardinal")
                "PluginManifests" |}
    /\ templatePath s'
       = system_join env (system_join env commonprogfiles "Cardinal")
           "template.vcv"
    /\ trace s' = EvGetSpecialPath :: trace s.
Proof.
  intros Hsrc Harch Hcpf Hne Hjoin. unfold resolve_paths, platform_default.
  rewrite Hsrc, Harch.
  unfold bind, assign_asset, modify, get, getSpecialPath, invoke, join, ret.
  simpl. rewrite Hcpf, Hne. simpl. rewrite Hjoin. simpl.
  eexists. split; [reflexivity|]. by repeat split.
Qed.

(** On Windows with a source directory whose [Rack/res] is missing and
    an empty answer for the common program files: the system dir keeps
    the value taken from the source directory at line 104, and the bundle
    path and the template path are joined to that directory. *)
Theorem windows_keeps_source_systemDir s source_dir :
  CARDINAL_PLUGIN_SOURCE_DIR cfg = Some source_dir ->
  ARCH cfg = ARCH_WIN ->
  (system_exists env
     (system_join env (source_systemDir cfg source_dir) "res")
     (world s)).1 = Ok false ->
  (getSpecialPath_CommonProgramFiles env
     (system_exists env
        (system_join env (source_systemDir cfg source_dir) "res")
        (world s)).2).1 = Ok EmptyString ->
  exists s',
    resolve_paths env cfg s = Returns PlatformDefaultBranch s'
    /\ asset s'
       = {| systemDir := source_systemDir cfg source_dir;
            userDir := source_systemDir cfg source_dir;
            bundlePath :=
              system_join env (source_systemDir cfg source_dir)
                "PluginManifests" |}
    /\ templatePath s'
       = system_join env (source_systemDir cfg source_dir) "template.vcv".
Proof.
  intros Hsrc Harch Hres Hcpf. unfold resolve_paths, platform_default.
  rewrite Hsrc, Harch.
  unfold bind, assign_asset, modify, get, getSpecialPath, exists_, invoke,
    join, ret.
  simpl. fold (source_systemDir cfg source_dir). rewrite Hres. simpl.
  rewrite Hcpf. simpl. rewrite (source_systemDir_not_empty cfg). simpl.
  eexists. split; [reflexivity|]. by repeat split.
Qed.

Lemma resolve_paths_exists_throws s source_dir :
  CARDINAL_PLUGIN_SOURCE_DIR cfg = Some source_dir ->
  (system_exists env
     (system_join env (source_systemDir cfg source_dir) "res")
     (world s)).1 = Throw ->
  exists s',
    resolve_paths env cfg s = Throws s'
    /\ systemDir (asset s') = source_systemDir cfg source_dir
    /\ userDir (asset s') = userDir (asset s)
    /\ trace s'
       = EvExists (system_join env (source_systemDir cfg source_dir) "res")
           :: trace s.
Proof.
  intros Hsrc Hres. unfold resolve_paths. rewrite Hsrc.
  unfold bind, assign_asset, modify, get, exists_, invoke, join. simpl.
  fold (source_systemDir cfg source_dir). rewrite Hres.
  eexists. split; [reflexivity|]. by repeat split.
Qed.

(** An exception of the existence check of [Rack/res] is not caught:
    [main] ends with it, the check being the last thing the run did; no
    warning was written and no scratch directory was looked for. *)
Theorem main_aborts_when_exists_throws fuel (w : W) s1 source_dir :
  CARDINAL_PLUGIN_SOURCE_DIR cfg = Some source_dir ->
  init_subsystems env (initial_state w) = Returns tt s1 ->
  (system_exists env
     (system_join env (source_systemDir cfg source_dir) "res")
     (world s1)).1 = Throw ->
  exists s',
    main env cfg fuel (initial_state w) = Throws s'
    /\ trace s'
       = EvExists (system_join env (source_systemDir cfg source_dir) "res")
           :: trace s1.
Proof.
  intros Hsrc Hinit Hres.
  destruct (resolve_paths_exists_throws s1 source_dir Hsrc Hres)
    as (s' & Hthrow & _ & _ & Htrace).
  exists s'. split; [|done].
  unfold main, startup. unfold bind at 1 2. unfold bind at 1.
  rewrite Hinit. unfold bind at 1. by rewrite Hthrow.
Qed.

End Arms.

Lemma install_location_paths_witness :
  exists s',
    resolve_paths (SimFS.collaborators SimFS.posix) cfg_installed
      (initial_state ∅)
    = Returns PlatformDefaultBranch s'
    /\ asset s'
       = {| systemDir := "/usr/local/share/cardinal";
            userDir := "/usr/local/share/cardinal";
            bundlePath := "/usr/local/share/cardinal/PluginManifests" |}
    /\ templatePath s' = "/usr/local/share/cardinal/template.vcv"
    /\ world s' = ∅
    /\ trace s' = [].
Proof.
  apply (install_location_paths (SimFS.collaborators SimFS.posix)
           cfg_installed (initial_state ∅) "/usr/local/share/cardinal").
  - reflexivity.
  - discriminate.
  - reflexivity.
Defined.

Lemma source_dir_missing_falls_back_witness :
  exists s',
    resolve_paths (SimFS.collaborators SimFS.posix) cfg_source_dir
      (initial_state ∅)
    = Returns PlatformDefaultBranch s'
    /\ asset s'
       = {| systemDir := "/usr/local/share/cardinal";
            userDir := "/usr/local/share/cardinal";
            bundlePath := "/usr/local/share/cardinal/PluginManifests" |}
    /\ templatePath s' = "/usr/local/share/cardinal/template.vcv".
Proof.
  apply (source_dir_missing_falls_back (SimFS.collaborators SimFS.posix)
           cfg_source_dir (initial_state ∅) "/src"
           "/usr/local/share/cardinal").
  - reflexivity.
  - vm_compute. reflexivity.
  - discriminate.
  - reflexivity.
Defined.

Lemma windows_program_files_witness :
  exists s',
    resolve_paths (SimFS.collaborators windows_box) cfg_windows
      (initial_state ∅)
    = Returns PlatformDefaultBranch s'
    /\ asset s'
       = {| systemDir := "C:\Program Files\Common Files/Cardinal";
            userDir := "C:\Program Files\Common Files/Cardinal";
            bundlePath :=
              "C:\Program Files\Common Files/Cardinal/PluginManifests" |}
    /\ templatePath s'
       = "C:\Program Files\Common Files/Cardinal/template.vcv"
    /\ trace s' = [EvGetSpecialPath].
Proof.
  apply (windows_program_files (SimFS.collaborators windows_box) cfg_windows
           (initial_state ∅) "C:\Program Files\Common Files");
    reflexivity.
Defined.

Lemma windows_keeps_source_systemDir_witness :
  exists s',
    resolve_paths (SimFS.collaborators SimFS.posix) cfg_windows_source_dir
      (initial_state ∅)
    = Returns PlatformDefaultBranch s'
    /\ asset s'
       = {| systemDir := "C:\src\Rack"; userDir := "C:\src\Rack";
            bundlePath := "C:\src\Rack/PluginManifests" |}
    /\ templatePath s' = "C:\src\Rack/template.vcv".
Proof.
  apply (windows_keeps_source_systemDir (SimFS.collaborators SimFS.posix)
           cfg_windows_source_dir (initial_state ∅) "C:\src").
  - reflexivity.
  - reflexivity.
  - vm_compute. reflexivity.
  - reflexivity.
Defined.

Lemma main_aborts_when_exists_throws_witness :
  exists s',
    main (Stub.collaborators Throw) cfg_source_dir 1 (initial_state tt)
    = Throws s'
    /\ trace s'
       = [EvExists "/src/Rack/res"; EvCall ui_init; EvCall random_init;
          EvCall logger_init; EvCall system_init]
         ++ ((fun hex => EvCall (color_fromHexString hex))
               <$> reverse cableColors).
Proof.
  exact (main_aborts_when_exists_throws (Stub.collaborators Throw)
           cfg_source_dir 1 tt
           (match init_subsystems (Stub.collaborators Throw) (initial_state tt)
            with
            | Returns _ s => s
            | _ => initial_state tt
            end) "/src" eq_refl eq_refl eq_refl).
Defined.

(** ** More on the search for the temporary path *)

Section Overflow.
Context {W : Type} (env : Collaborators W).
Implicit Types s : State W.

Lemma counters_from (f : Z -> string) (i : Z) (n : nat) :
  ((fun j => f (i + 1 + Z.of_nat j)) <$> reverse (seq 0 n)) ++ [f i]
  = (fun j => f (i + Z.of_nat j)) <$> reverse (seq 0 (S n)).
Proof.
  cbn [seq]. rewrite reverse_cons, fmap_app, <- fmap_S_seq, !fmap_reverse.
  rewrite <- list_fmap_compose. cbn [fmap list_fmap].
  rewrite Z.add_0_r. f_equal. f_equal. apply list_fmap_ext. intros _ j _.
  simpl. f_equal. lia.
Qed.

(** From counter [i] on, with every candidate found to exist, the loop
    probes the candidates [i .. INT_MAX] and then overflows. *)
Lemma search_runs_out (n : nat) tmp i s fuel :
  (forall p w, (system_exists env p w).1 = Ok true) ->
  i + Z.of_nat n = INT_MAX -> (n < fuel)%nat ->
  exists s',
    search env fuel tmp i s = Undefined s'
    /\ autosavePath s' = autosavePath s
    /\ probes (trace s')
       = ((fun j => candidate env tmp (i + Z.of_nat j)) <$> reverse (seq 0 (S n)))
         ++ probes (trace s)
    /\ creations (trace s') = creations (trace s).
Proof.
  intros Hex. revert i s fuel.
  induction n as [|n IH]; intros i s fuel Hi Hfuel.
  - destruct fuel as [|fuel]; [lia|]. cbn [search].
    unfold bind, exists_, invoke, undefined, join.
    fold (candidate env tmp i). rewrite Hex. cbn [negb].
    replace (i =? INT_MAX) with true by (symmetry; apply Z.eqb_eq; lia).
    eexists. split; [reflexivity|]. cbn. rewrite Z.add_0_r. done.
  - destruct fuel as [|fuel]; [lia|].
    rewrite search_skip by (first [apply Hex | lia]).
    destruct (IH (i + 1) (probed env (candidate env tmp i) s) fuel)
      as (s' & Hs' & Ha & Hp & Hc); [lia | lia |].
    exists s'. split; [done|]. split; [done|]. split; [|done].
    rewrite Hp. cbn [probed add_event trace probes omap].
    rewrite <- (counters_from (candidate env tmp) i (S n)).
    by rewrite <- app_assoc.
Qed.

(** When every candidate is found to exist, the loop never breaks: it
    asks for each of the candidates [1 .. INT_MAX] in turn, and then the
    increment of the counter overflows.  No directory was asked to be
    created, and [autosavePath] is empty. *)
Theorem create_autosavePath_overflows fuel s tmp :
  (forall p w, (system_exists env p w).1 = Ok true) ->
  (system_getTempDirectory env (world s)).1 = Ok tmp ->
  (Z.to_nat INT_MAX <= fuel)%nat ->
  exists s',
    create_autosavePath env fuel s = Undefined s'
    /\ autosavePath s' = EmptyString
    /\ probes (trace s')
       = (candidate env tmp <$> counters_down (Z.to_nat INT_MAX))
         ++ probes (trace s)
    /\ creations (trace s') = creations (trace s).
Proof.
  intros Hex Htmp Hfuel. rewrite create_autosavePath_unfold, Htmp.
  assert (Hn : exists n : nat,
            1 + Z.of_nat n = INT_MAX /\ Z.to_nat INT_MAX = S n).
  { exists (Z.to_nat (INT_MAX - 1)). unfold INT_MAX. lia. }
  destruct Hn as (n & Hi & Hn). rewrite Hn in *. clear Hn.
  destruct (search_runs_out n tmp 1 (entered env s) fuel)
    as (s' & Hs' & Ha & Hp & Hc); [done | done | lia |].
  rewrite Hs'. exists s'. split; [reflexivity|]. split; [exact Ha|].
  split; [|exact Hc]. rewrite Hp. unfold counters_down.
  rewrite <- fmap_S_seq, !fmap_reverse, <- !list_fmap_compose.
  rewrite (list_fmap_ext _ (candidate env tmp ∘ Z.of_nat ∘ S) (seq 0 (S n)));
    [reflexivity|].
  intros _ j _. simpl. f_equal. lia.
Qed.
End Overflow.

Lemma create_autosavePath_overflows_witness :
  exists s',
    create_autosavePath (Stub.collaborators (Ok true)) (Z.to_nat INT_MAX)
      (initial_state tt)
    = Undefined s'
    /\ autosavePath s' = EmptyString
    /\ probes (trace s')
       = (candidate (Stub.collaborators (Ok true)) "/tmp"
            <$> counters_down (Z.to_nat INT_MAX))
         ++ probes (trace (initial_state tt))
    /\ creations (trace s') = creations (trace (initial_state tt)).
Proof.
  apply (create_autosavePath_overflows (Stub.collaborators (Ok true))
           (Z.to_nat INT_MAX) (initial_state tt) "/tmp").
  - intros p w. reflexivity.
  - reflexivity.
  - apply Nat.le_refl.
Defined.

Section FirstFree.
Import SimFS.
Context (b : Behaviour).

(** The search in the simulated file system, whatever creation does. *)
Lemma sim_search_outcome fuel tmp i (s : State (gset string)) :
  match search (collaborators b) fuel tmp i s with
  | Returns _ s' =>
      (autosavePath s' = autosavePath s /\ world s' = world s)
      \/ (exists k,
            i <= k
            /\ autosavePath s' = candidate (collaborators b) tmp k
            /\ (candidate (collaborators b) tmp k ∉ world s)
            /\ (forall j, i <= j < k ->
                          candidate (collaborators b) tmp j ∈ world s)
            /\ world s' = {[candidate (collaborators b) tmp k]} ∪ world s)
  | Throws s' | Undefined s' =>
      autosavePath s' = autosavePath s /\ world s' = world s
  | OutOfFuel => True
  end.
Proof.
  revert i s. induction fuel as [|fuel IH]; intros i s; [exact I|].
  destruct (decide (candidate (collaborators b) tmp i ∈ world s)) as [Hin|Hout].
  - assert (Hex : (system_exists (collaborators b)
                     (candidate (collaborators b) tmp i) (world s)).1 = Ok true)
      by (simpl; by rewrite bool_decide_eq_true_2).
    destruct (Z.eq_dec i INT_MAX) as [->|Hne].
    + cbn [search]. unfold bind, exists_, invoke, join.
      fold (candidate (collaborators b) tmp INT_MAX). rewrite Hex.
      simpl. done.
    + assert (Hstep : search (collaborators b) (S fuel) tmp i s
                      = search (collaborators b) fuel tmp (i + 1)
                          (probed (collaborators b)
                             (candidate (collaborators b) tmp i) s)).
      { cbn [search]. unfold bind at 1, exists_, invoke, join.
        fold (candidate (collaborators b) tmp i). rewrite Hex. cbn [negb].
        destruct (Z.eqb_spec i INT_MAX); [lia | reflexivity]. }
      rewrite Hstep.
      specialize (IH (i + 1)
                    (probed (collaborators b)
                       (candidate (collaborators b) tmp i) s)).
      destruct (search (collaborators b) fuel tmp (i + 1) _); try done.
      destruct IH as [IH|(k & Hk & Ha & Hfree & Hbelow & Hw)]; [by left|].
      right. exists k. split; [lia|]. split; [done|]. split; [done|].
      split; [|done]. intros j Hj.
      destruct (decide (j = i)) as [->|]; [done | apply Hbelow; lia].
  - assert (Hex : (system_exists (collaborators b)
                     (candidate (collaborators b) tmp i) (world s)).1 = Ok false)
      by (simpl; by rewrite bool_decide_eq_false_2).
    rewrite search_stop by done. cbn zeta. simpl.
    destruct (creation b) as [[]|] eqn:Hcr; simpl; rewrite ?Hcr;
      [ | by left | done ].
    right. exists i. split; [lia|]. split; [done|]. split; [done|].
    split; [intros j Hj; lia | done].
Qed.

(** Whatever the allocator returns in the simulated file system: the
    empty path, with the file system as it was; or the first candidate
    that did not exist, every candidate before it existing, with this one
    path added and nothing else changed. *)
Theorem allocate_first_free fuel (fs : gset string) p fs' :
  allocate b fuel fs = Some (p, fs') ->
  (p = EmptyString /\ fs' = fs)
  \/ (exists tmp k,
        temp_directory b = Ok tmp
        /\ 1 <= k
        /\ p = candidate (collaborators b) tmp k
        /\ (p ∉ fs)
        /\ (forall j, 1 <= j < k -> candidate (collaborators b) tmp j ∈ fs)
        /\ fs' = {[p]} ∪ fs).
Proof.
  unfold allocate. rewrite create_autosavePath_unfold. simpl.
  destruct (temp_directory b) as [tmp|]; [|intros [= <- <-]; by left].
  pose proof (sim_search_outcome fuel tmp 1
                (entered (collaborators b) (initial_state fs))) as Ho.
  destruct (search (collaborators b) fuel tmp 1 _) as [[] s'|s'|s'|];
    try discriminate; intros [= <- <-]; simpl in Ho.
  - destruct Ho as [[Ha Hw]|(k & Hk & Ha & Hfree & Hbelow & Hw)]; [by left|].
    right. exists tmp, k. rewrite Ha. by repeat split.
  - left. by destruct Ho.
Qed.
End FirstFree.

Lemma allocate_first_free_witness :
  ("/tmp/CardinalRemote.0002" = EmptyString
   /\ ({[ "/tmp/CardinalRemote.0002"; "/tmp/CardinalRemote.0001";
          "/tmp/CardinalRemote.0003" ]} : gset string)
      = {[ "/tmp/CardinalRemote.0001"; "/tmp/CardinalRemote.0003" ]})
  \/ (exists tmp k,
        SimFS.temp_directory SimFS.posix = Ok tmp
        /\ 1 <= k
        /\ "/tmp/CardinalRemote.0002"
           = candidate (SimFS.collaborators SimFS.posix) tmp k
        /\ ("/tmp/CardinalRemote.0002"
            ∉ ({[ "/tmp/CardinalRemote.0001"; "/tmp/CardinalRemote.0003" ]}
               : gset string))
        /\ (forall j, 1 <= j < k ->
              candidate (SimFS.collaborators SimFS.posix) tmp j
              ∈ ({[ "/tmp/CardinalRemote.0001"; "/tmp/CardinalRemote.0003" ]}
                 : gset string))
        /\ ({[ "/tmp/CardinalRemote.0002"; "/tmp/CardinalRemote.0001";
               "/tmp/CardinalRemote.0003" ]} : gset string)
           = {[ "/tmp/CardinalRemote.0002" ]}
             ∪ {[ "/tmp/CardinalRemote.0001"; "/tmp/CardinalRemote.0003" ]}).
Proof.
  apply (allocate_first_free SimFS.posix 5
           {[ "/tmp/CardinalRemote.0001"; "/tmp/CardinalRemote.0003" ]}).
  vm_compute. reflexivity.
Defined.

(** With stale directories [1 .. k-1] in the way and candidate [k] free,
    the allocator probes [k] candidates, creates the [k]-th and leaves
    the stale ones as they are. *)
Theorem allocate_skips_stale b tmp (k : Z) fuel (fs : gset string) :
  SimFS.temp_directory b = Ok tmp ->
  SimFS.creation b = Ok true ->
  1 <= k <= INT_MAX ->
  (forall j, 1 <= j < k -> candidate (SimFS.collaborators b) tmp j ∈ fs) ->
  candidate (SimFS.collaborators b) tmp k ∉ fs ->
  (Z.to_nat k <= fuel)%nat ->
  allocate b fuel fs
  = Some (candidate (SimFS.collaborators b) tmp k,
          {[candidate (SimFS.collaborators b) tmp k]} ∪ fs).
Proof.
  intros Htmp Hcreate Hk Hin Hout Hfuel.
  replace k with (k - 1 + 1) in * by lia.
  apply (allocate_next b tmp Htmp Hcreate (k - 1)); try done; try lia.
  intros j Hj. apply Hin. lia.
Qed.

Lemma allocate_skips_stale_witness :
  allocate SimFS.posix 3
    {[ "/tmp/CardinalRemote.0001"; "/tmp/CardinalRemote.0002" ]}
  = Some ("/tmp/CardinalRemote.0003",
          {[ "/tmp/CardinalRemote.0003" ]}
          ∪ {[ "/tmp/CardinalRemote.0001"; "/tmp/CardinalRemote.0002" ]}).
Proof.
  apply (allocate_skips_stale SimFS.posix "/tmp" 3 3
           {[ "/tmp/CardinalRemote.0001"; "/tmp/CardinalRemote.0002" ]}).
  - reflexivity.
  - reflexivity.
  - unfold INT_MAX. lia.
  - intros j Hj.
    assert (j = 1 \/ j = 2) as [-> | ->] by lia; vm_compute; set_solver.
  - vm_compute. set_solver.
  - simpl. lia.
Defined.

(** ** More on the plugin context *)

(** Resolves the lookups and field writes that [forward] leaves behind. *)
Ltac resolve_stores :=
  repeat match goal with
    | H : <[?k:=_]> _ !! ?k = Some _ |- _ =>
        rewrite lookup_insert_eq in H; injection H as <-
    | H : <[_:=_]> _ !! _ = Some _ |- _ =>
        rewrite lookup_insert_ne in H by lia
    | H : write_autosavePath _ (PatchManager _ _) = Some _ |- _ =>
        injection H as <-
    | H : write_templatePath _ (PatchManager _ _) = Some _ |- _ =>
        injection H as <-
    | H : write_rootWidget _ (EventState _) = Some _ |- _ =>
        injection H as <-
    end.

Section ContextMore.
Context {W : Type} (env : Collaborators W) (cfg : BuildConfig).
Implicit Types s : State W.

(** Before the context is built nothing is allocated. *)
Lemma before_context_memory fuel :
  preserves (fun s => (heap s, next_loc s))
    (init_subsystems env ;;
     resolve_paths env cfg ;;
     log_environment env ;;
     report_installation env ;;
     INFO "Initializing plugins" EmptyString ;;
     call env initStaticPlugins ;;
     INFO "Initializing plugin browser DB" EmptyString ;;
     call env browserInit ;;
     create_autosavePath env fuel).
Proof.
  unfold init_subsystems, resolve_paths, platform_default, log_environment,
    report_installation, create_autosavePath.
  assert (Hsearch : forall tmp i,
            preserves (fun s => (heap s, next_loc s)) (search env fuel tmp i)).
  { induction fuel as [|n IH]; intros tmp i; cbn [search]; frame. apply IH. }
  frame. apply Hsearch.
Qed.

Lemma startup_split fuel s s' :
  startup env cfg fuel s = Returns tt s' ->
  exists s9 s8,
    create_autosavePath env fuel s8 = Returns tt s9
    /\ construct_context env s9 = Returns tt s'
    /\ heap s9 = heap s /\ next_loc s9 = next_loc s.
Proof.
  unfold startup. intros H.
  pose proof (before_context_memory fuel s) as Hmem.
  unfold bind at 1 in Hmem.
  apply bind_Returns in H as ([] & s1 & H1 & H). rewrite H1 in Hmem.
  unfold bind at 1 in Hmem.
  apply bind_Returns in H as (? & s2 & H2 & H). rewrite H2 in Hmem.
  unfold bind at 1 in Hmem.
  apply bind_Returns in H as ([] & s3 & H3 & H). rewrite H3 in Hmem.
  unfold bind at 1 in Hmem.
  apply bind_Returns in H as ([] & s4 & H4 & H). rewrite H4 in Hmem.
  unfold bind at 1 in Hmem.
  apply bind_Returns in H as ([] & s5 & H5 & H). rewrite H5 in Hmem.
  unfold bind at 1 in Hmem.
  apply bind_Returns in H as ([] & s6 & H6 & H). rewrite H6 in Hmem.
  unfold bind at 1 in Hmem.
  apply bind_Returns in H as ([] & s7 & H7 & H). rewrite H7 in Hmem.
  unfold bind at 1 in Hmem.
  apply bind_Returns in H as ([] & s8 & H8 & H). rewrite H8 in Hmem.
  apply bind_Returns in H as ([] & s9 & H9 & H). rewrite H9 in Hmem.
  specialize (Hmem s9 eq_refl). injection Hmem as Hh Hn.
  by exists s9, s8.
Qed.

Lemma construct_context_keeps_paths :
  preserves (fun s => (autosavePath s, templatePath s, asset s))
    (construct_context env).
Proof. unfold construct_context. frame. Qed.

(** What [construct_context] builds, given the state it starts in. *)
Lemma construct_context_Returns s s' :
  construct_context env s = Returns tt s' ->
  let n := next_loc s in
  context s'
  = {| bufferSize := 512; sampleRate := 48000;
       engine := Some n; history := Some (Pos.succ n);
       patch := Some (Pos.succ (Pos.succ n));
       event := Some (Pos.succ (Pos.succ (Pos.succ n)));
       scene := Some (Pos.succ (Pos.succ (Pos.succ (Pos.succ n))));
       window :=
         Some (Pos.succ (Pos.succ (Pos.succ (Pos.succ (Pos.succ n))))) |}
  /\ heap s'
     = <[Pos.succ (Pos.succ (Pos.succ (Pos.succ (Pos.succ n)))) := RackWindow]>
         (<[Pos.succ (Pos.succ (Pos.succ n))
            := EventState (Some (Pos.succ (Pos.succ (Pos.succ (Pos.succ n)))))]>
            (<[Pos.succ (Pos.succ (Pos.succ (Pos.succ n))) := Scene]>
               (<[Pos.succ (Pos.succ (Pos.succ n)) := EventState None]>
                  (<[Pos.succ (Pos.succ n)
                     := PatchManager (autosavePath s) (templatePath s)]>
                     (<[Pos.succ (Pos.succ n)
                        := PatchManager (autosavePath s) EmptyString]>
                        (<[Pos.succ (Pos.succ n)
                           := PatchManager EmptyString EmptyString]>
                           (<[Pos.succ n := HistoryState]>
                              (<[n := Engine]> (heap s))))))))).
Proof.
  unfold construct_context, contextSet. intros H.
  do 34 forward H.
  apply call_Returns in H as [? ->].
  resolve_stores. unfold add_event, set_world. cbn. done.
Qed.

(** In every run that gets through startup the context holds six
    objects at six different addresses, none of them the address of the
    context; buffer size and sample rate are 512 and 48000; the patch
    manager has the scratch path and the template path of this run; and
    the event state points at the scene. *)
Theorem context_fully_wired fuel (w : W) s :
  startup env cfg fuel (initial_state w) = Returns tt s ->
  exists e h p ev sc win,
    context s
    = {| bufferSize := 512; sampleRate := 48000;
         engine := Some e; history := Some h; patch := Some p;
         event := Some ev; scene := Some sc; window := Some win |}
    /\ NoDup [addr_context; e; h; p; ev; sc; win]
    /\ heap s !! e = Some Engine
    /\ heap s !! h = Some HistoryState
    /\ heap s !! p = Some (PatchManager (autosavePath s) (templatePath s))
    /\ heap s !! ev = Some (EventState (Some sc))
    /\ heap s !! sc = Some Scene
    /\ heap s !! win = Some RackWindow.
Proof.
  intros (s9 & s8 & _ & Hctx & Hheap & Hnext)%startup_split.
  assert (Hpaths : (autosavePath s, templatePath s, asset s)
                   = (autosavePath s9, templatePath s9, asset s9))
    by (apply construct_context_keeps_paths; by rewrite Hctx).
  injection Hpaths as -> -> _.
  apply construct_context_Returns in Hctx as [Hc Hh].
  rewrite Hnext, Hheap in *. cbn in Hc, Hh. rewrite Hc, Hh.
  eexists _, _, _, _, _, _. split; [reflexivity|]. split.
  - apply (bool_decide_unpack _). vm_compute. reflexivity.
  - repeat split;
      repeat first
        [ apply lookup_insert_eq
        | rewrite lookup_insert_ne by (simpl; lia) ].
Qed.

(** Startup is the run up to the search, the search, and the
    construction of the context. *)
Lemma startup_phases fuel s :
  startup env cfg fuel s
  = (before_scratch env cfg ;;
     create_autosavePath env fuel ;;
     construct_context env) s.
Proof.
  unfold startup, before_scratch. symmetry.
  repeat (etrans; [apply bind_assoc|]; apply bind_ext; intros ? ?).
  reflexivity.
Qed.

(** The scratch path of a run that gets through startup, when it is not
    empty, is a directory this run created.  When the run had come to
    the search, [getTempDirectory] answered [tmp]; the candidates below
    some [k] were found to exist, one after the other; the existence
    check of candidate [k] answered no and its creation answered yes; the
    context was built in the state this left; and the scratch path is
    candidate [k]. *)
Theorem scratch_path_is_created fuel (w : W) s :
  startup env cfg fuel (initial_state w) = Returns tt s ->
  empty (autosavePath s) = false ->
  exists s0 tmp k s1 s2,
    before_scratch env cfg (initial_state w) = Returns tt s0
    /\ (system_getTempDirectory env (world s0)).1 = Ok tmp
    /\ skips env tmp 1 (entered env s0) k s1
    /\ created_at env tmp k s1 s2
    /\ construct_context env s2 = Returns tt s
    /\ autosavePath s = candidate env tmp k.
Proof.
  rewrite startup_phases. intros H Hne.
  apply bind_Returns in H as ([] & s0 & Hpre & H).
  apply bind_Returns in H as ([] & s2 & Hcreate & Hctx).
  assert (Hpaths : (autosavePath s, templatePath s, asset s)
                   = (autosavePath s2, templatePath s2, asset s2))
    by (apply construct_context_keeps_paths; by rewrite Hctx).
  injection Hpaths as Ha _ _. rewrite Ha in *.
  apply create_autosavePath_Returns
    in Hcreate as [Hempty|(tmp & k & s1 & Htmp & Hskips & Hc)].
  - rewrite Hempty in Hne. discriminate.
  - exists s0, tmp, k, s1, s2. do 5 (split; [done|]).
    destruct Hc as (_ & _ & ->). reflexivity.
Qed.
End ContextMore.

Lemma context_fully_wired_witness :
  returned
    (startup (SimFS.collaborators SimFS.posix) cfg_installed 1
       (initial_state ∅))
    (fun _ s =>
       exists e h p ev sc win,
         context s
         = {| bufferSize := 512; sampleRate := 48000;
              engine := Some e; history := Some h; patch := Some p;
              event := Some ev; scene := Some sc; window := Some win |}
         /\ NoDup [addr_context; e; h; p; ev; sc; win]
         /\ heap s !! e = Some Engine
         /\ heap s !! h = Some HistoryState
         /\ heap s !! p = Some (PatchManager (autosavePath s) (templatePath s))
         /\ heap s !! ev = Some (EventState (Some sc))
         /\ heap s !! sc = Some Scene
         /\ heap s !! win = Some RackWindow).
Proof.
  apply returned_intro; [vm_compute; eauto|]. intros [] s E.
  apply (context_fully_wired _ _ _ _ _ E).
Defined.

(** With a stale directory in the way the run skips candidate 1 and
    creates candidate 2. *)
Lemma scratch_path_is_created_witness :
  returned
    (startup (SimFS.collaborators SimFS.posix) cfg_installed 2
       (initial_state {[ "/tmp/CardinalRemote.0001" ]}))
    (fun _ s =>
       autosavePath s = "/tmp/CardinalRemote.0002"
       /\ exists s0 tmp k s1 s2,
            before_scratch (SimFS.collaborators SimFS.posix) cfg_installed
              (initial_state {[ "/tmp/CardinalRemote.0001" ]})
            = Returns tt s0
            /\ (system_getTempDirectory (SimFS.collaborators SimFS.posix)
                  (world s0)).1 = Ok tmp
            /\ skips (SimFS.collaborators SimFS.posix) tmp 1
                 (entered (SimFS.collaborators SimFS.posix) s0) k s1
            /\ created_at (SimFS.collaborators SimFS.posix) tmp k s1 s2
            /\ construct_context (SimFS.collaborators SimFS.posix) s2
               = Returns tt s
            /\ autosavePath s
               = candidate (SimFS.collaborators SimFS.posix) tmp k).
Proof.
  assert (Ha : autosavePath
                 <$> final
                       (startup (SimFS.collaborators SimFS.posix)
                          cfg_installed 2
                          (initial_state {[ "/tmp/CardinalRemote.0001" ]}))
               = Some "/tmp/CardinalRemote.0002") by (vm_compute; reflexivity).
  apply returned_intro; [vm_compute; eauto|]. intros [] s E.
  rewrite E in Ha. injection Ha as Ha. split; [exact Ha|].
  apply (scratch_path_is_created _ _ _ _ _ E). rewrite Ha. reflexivity.
Defined.

(** ** The order of the calls *)

Section CallOrder.
Context {W : Type} (env : Collaborators W) (cfg : BuildConfig).
Implicit Types s : State W.

Lemma resolve_paths_outline :
  preserves (fun s => outline (trace s)) (resolve_paths env cfg).
Proof. unfold resolve_paths, platform_default. frame. Qed.

Lemma report_installation_outline :
  preserves (fun s => outline (trace s)) (report_installation env).
Proof. unfold report_installation. frame. Qed.

Lemma create_autosavePath_outline fuel :
  preserves (fun s => outline (trace s)) (create_autosavePath env fuel).
Proof.
  unfold create_autosavePath.
  assert (Hsearch : forall tmp i,
            preserves (fun s => outline (trace s)) (search env fuel tmp i)).
  { induction fuel as [|n IH]; intros tmp i; cbn [search]; frame. apply IH. }
  frame. apply Hsearch.
Qed.

(** The calls of a run that gets through startup. *)
Lemma startup_outline fuel s s' :
  startup env cfg fuel s = Returns tt s' ->
  exists e p sc,
    engine (context s') = Some e
    /\ patch (context s') = Some p
    /\ scene (context s') = Some sc
    /\ outline (trace s')
       = (EvCall
            <$> [RackScroll_reset sc; Patch_loadTemplate p; new_RackWindow;
                 new_Scene; new_EventState; new_PatchManager;
                 new_HistoryState; Engine_setSampleRate e 48000; new_Engine;
                 new_CardinalPluginContext; browserInit; initStaticPlugins])
         ++ EvGetOperatingSystemInfo
         :: (EvCall
               <$> [ui_init; random_init; logger_init; system_init]
                   ++ (color_fromHexString <$> reverse cableColors))
         ++ outline (trace s).
Proof.
  unfold startup. intros H.
  apply bind_Returns in H as ([] & s1 & Hinit & H).
  unfold init_subsystems in Hinit.
  apply bind_Returns in Hinit as ([] & s0 & Hset & Hinit).
  unfold configure_settings in Hset. do 15 forward Hset.
  apply invoke_Returns in Hset as [_ ->]. normalise_states.
  do 3 forward Hinit.
  apply invoke_Returns in Hinit as [_ ->]. normalise_states.
  apply bind_Returns in H as (? & s2 & H2%(f_equal final) & H).
  apply resolve_paths_outline in H2. cbn in H2.
  apply bind_Returns in H as ([] & s3 & H3 & H).
  unfold log_environment, INFO, log in H3. do 6 forward H3.
  apply modify_Returns in H3 as ->. normalise_states.
  apply bind_Returns in H as ([] & s4 & H4%(f_equal final) & H).
  apply report_installation_outline in H4. cbn in H4.
  unfold INFO, log in H. do 4 forward H.
  apply bind_Returns in H as ([] & s9 & H9%(f_equal final) & H).
  apply create_autosavePath_outline in H9. cbn in H9.
  unfold construct_context, contextSet in H. do 34 forward H.
  apply call_Returns in H as [? ->]. resolve_stores.
  unfold add_event, set_world, outline in *. cbn in *.
  eexists _, _, _. do 3 (split; [reflexivity|]).
  rewrite H9, H4, H2. reflexivity.
Qed.

(** In every run in which [main] returns, the calls it made into Rack
    and the UI toolkit were made in this order and each once: the sixteen
    cable colours, the four subsystems, the query for the operating
    system, the static plugins, the browser, the context and its six
    objects (the engine gets the sample rate 48000 right after its
    construction), the template, the scroll reset, the application and
    its window, the UI inside the graphics context, the loop, the
    clearing of the patch, of the static plugins, of the settings and of
    the logger, and then, at the closing brace, the destructors of the
    UI, the window, the application and the context.  Left aside are the
    operations on the file system, the query for the common program
    files, the lines of the log, and [rack::contextSet], which the model
    has as an assignment. *)
Theorem main_call_order fuel (w : W) c s' :
  main env cfg fuel (initial_state w) = Returns c s' ->
  exists e p sc,
    engine (context s') = Some e
    /\ patch (context s') = Some p
    /\ scene (context s') = Some sc
    /\ outline (trace s')
       = (EvCall
            <$> [destroy_CardinalPluginContext; destroy_Application;
                 destroy_Window; delete_CardinalRemoteUI;
                 logger_destroy; settings_destroy; destroyStaticPlugins;
                 Patch_clear p;
                 Application_exec; Window_show; ScopedGraphicsContext_leave;
                 new_CardinalRemoteUI (templatePath s');
                 ScopedGraphicsContext_enter;
                 Window_setTitle "CardinalRemote";
                 Window_setResizable true; new_Window; new_Application;
                 RackScroll_reset sc; Patch_loadTemplate p; new_RackWindow;
                 new_Scene; new_EventState; new_PatchManager;
                 new_HistoryState; Engine_setSampleRate e 48000; new_Engine;
                 new_CardinalPluginContext; browserInit; initStaticPlugins])
         ++ EvGetOperatingSystemInfo
         :: (EvCall
               <$> [ui_init; random_init; logger_init; system_init]
                   ++ (color_fromHexString <$> reverse cableColors)).
Proof.
  unfold main. intros H.
  apply bind_Returns in H as ([] & s2 & Hstart & H).
  apply startup_outline in Hstart as (e & p & sc & He & Hp & Hsc & Hcalls).
  cbn in Hcalls.
  unfold run_ui in H.
  apply bind_Returns in H as ([] & s3 & Hui & H).
  do 9 forward Hui. apply invoke_Returns in Hui as [_ ->]. normalise_states.
  apply bind_Returns in H as ([] & s4 & Htear & H).
  apply bind_Returns in H as ([] & s7 & Hdtor & [-> ->]%ret_Returns).
  unfold destroy_locals in Hdtor. do 3 forward Hdtor.
  apply invoke_Returns in Hdtor as [_ ->]. normalise_states.
  unfold teardown in Htear. do 2 forward Htear.
  match goal with
  | Hd : patch (context s2) = Some _ |- _ =>
      rewrite Hp in Hd; injection Hd as <-
  end.
  do 2 forward Htear.
  apply bind_Returns in Htear as (? & s5 & Hrm & Htear).
  assert (Hs5 : context s5 = context s2 /\ templatePath s5 = templatePath s2
                /\ outline (trace s5)
                   = (EvCall
                        <$> [Patch_clear p; Application_exec; Window_show;
                             ScopedGraphicsContext_leave;
                             new_CardinalRemoteUI (templatePath s2);
                             ScopedGraphicsContext_enter;
                             Window_setTitle "CardinalRemote";
                             Window_setResizable true; new_Window;
                             new_Application])
                     ++ outline (trace s2)).
  { destruct (empty (autosavePath s2)); cbn [negb] in Hrm.
    - apply ret_Returns in Hrm as [_ ->]. by repeat split.
    - apply bind_Returns
        in Hrm as (? & s6 & [_ ->]%invoke_Returns & [_ ->]%ret_Returns).
      by repeat split. }
  clear Hrm. destruct Hs5 as (Hc5 & Ht5 & Hcalls5).
  unfold INFO, log in Htear. do 9 forward Htear.
  apply invoke_Returns in Htear as [_ ->]. normalise_states.
  unfold outline in *. cbn in *.
  rewrite Hc5, Ht5, Hcalls5, Hcalls.
  exists e, p, sc. by repeat split.
Qed.
End CallOrder.

Lemma main_call_order_witness :
  returned
    (main (SimFS.collaborators SimFS.posix) cfg_installed 1 (initial_state ∅))
    (fun _ s' =>
       exists e p sc,
         engine (context s') = Some e
         /\ patch (context s') = Some p
         /\ scene (context s') = Some sc
         /\ outline (trace s')
            = (EvCall
                 <$> [destroy_CardinalPluginContext; destroy_Application;
                      destroy_Window; delete_CardinalRemoteUI;
                      logger_destroy; settings_destroy; destroyStaticPlugins;
                      Patch_clear p;
                      Application_exec; Window_show;
                      ScopedGraphicsContext_leave;
                      new_CardinalRemoteUI (templatePath s');
                      ScopedGraphicsContext_enter;
                      Window_setTitle "CardinalRemote";
                      Window_setResizable true; new_Window; new_Application;
                      RackScroll_reset sc; Patch_loadTemplate p;
                      new_RackWindow; new_Scene; new_EventState;
                      new_PatchManager; new_HistoryState;
                      Engine_setSampleRate e 48000; new_Engine;
                      new_CardinalPluginContext; browserInit;
                      initStaticPlugins])
              ++ EvGetOperatingSystemInfo
              :: (EvCall
                    <$> [ui_init; random_init; logger_init; system_init]
                        ++ (color_fromHexString <$> reverse cableColors))).
Proof.
  apply returned_intro; [vm_compute; eauto|]. intros c s' E.
  apply (main_call_order _ _ _ _ _ _ E).
Defined.

(** ** What is removed, and when *)

Section Removal.
Context {W : Type} (env : Collaborators W) (cfg : BuildConfig).
Implicit Types s : State W.

Lemma final_bind {A B} (m : M W A) (k : A -> M W B) s s' :
  final (bind m k s) = Some s' ->
  (exists a s1, m s = Returns a s1 /\ final (k a s1) = Some s')
  \/ final (m s) = Some s'.
Proof.
  unfold bind. destruct (m s) as [a s1|s1|s1|]; simpl; eauto.
Qed.

Lemma final_invoke {A} (op : W -> exc A * W) e s s' :
  final (invoke op e s) = Some s' ->
  s' = add_event e (set_world (op (world s)).2 s).
Proof. unfold invoke. destruct (op (world s)).1; by intros [= <-]. Qed.

Lemma final_deref p s s' : final (deref p s) = Some s' -> s' = s.
Proof. destruct p; by intros [= <-]. Qed.

Lemma startup_no_removal fuel :
  preserves (fun s => removals (trace s)) (startup env cfg fuel).
Proof.
  unfold startup, init_subsystems, resolve_paths, platform_default,
    log_environment, report_installation, create_autosavePath,
    construct_context.
  assert (Hsearch : forall tmp i,
            preserves (fun s => removals (trace s)) (search env fuel tmp i)).
  { induction fuel as [|n IH]; intros tmp i; cbn [search]; frame. apply IH. }
  frame. apply Hsearch.
Qed.

Lemma run_ui_no_removal :
  preserves (fun s => (removals (trace s), autosavePath s)) (run_ui env).
Proof. unfold run_ui. frame. Qed.

(** The end of teardown, after the scratch directory is dealt with. *)
Lemma teardown_rest_no_removal :
  preserves (fun s => (removals (trace s), autosavePath s))
    (INFO "Clearing asset paths" EmptyString ;;
     assign_asset (set_bundlePath EmptyString) ;;
     assign_asset (set_systemDir EmptyString) ;;
     assign_asset (set_userDir EmptyString) ;;
     INFO "Destroying plugins" EmptyString ;;
     call env destroyStaticPlugins ;;
     INFO "Destroying settings" EmptyString ;;
     call env settings_destroy ;;
     INFO "Destroying logger" EmptyString ;;
     call env logger_destroy).
Proof. frame. Qed.

(** However teardown ends, it hands at most one path to
    [removeRecursively]: the scratch path, and only if it is not empty. *)
Lemma teardown_final s s' :
  final (teardown env s) = Some s' ->
  autosavePath s' = autosavePath s
  /\ (removals (trace s') = removals (trace s)
      \/ removals (trace s') = autosavePath s :: removals (trace s)
         /\ empty (autosavePath s) = false).
Proof.
  unfold teardown. intros H.
  apply final_bind in H as [(? & ? & [-> ->]%get_Returns & H)|[= <-]];
    [|by split; [|left]].
  apply final_bind in H as [(p & ? & [_ ->]%deref_Returns & H)|H%final_deref];
    [|subst; by split; [|left]].
  apply final_bind in H as [(? & ? & [_ ->]%invoke_Returns & H)|H%final_invoke];
    [|subst; by split; [|left]].
  apply final_bind in H as [(? & ? & [-> ->]%get_Returns & H)|[= <-]];
    [|by split; [|left]].
  normalise_states.
  destruct (empty (autosavePath s)) eqn:Hempty; cbn [negb] in H.
  - apply final_bind in H as [(? & ? & [_ ->]%ret_Returns & H)|[= <-]];
      [|by split; [|left]].
    apply teardown_rest_no_removal in H. injection H as Hr Ha.
    split; [exact Ha | left; exact Hr].
  - apply final_bind in H as [(? & s5 & Hrm & H)|H].
    + apply bind_Returns
        in Hrm as (? & ? & [_ ->]%invoke_Returns & [_ ->]%ret_Returns).
      apply teardown_rest_no_removal in H. injection H as Hr Ha.
      split; [exact Ha | right; split; [exact Hr | reflexivity]].
    + apply final_bind in H as [(? & ? & [_ ->]%invoke_Returns & [= <-])
                               |H%final_invoke].
      * split; [reflexivity | right; by split].
      * subst. split; [reflexivity | right; by split].
Qed.

Lemma closing_brace_no_removal :
  preserves (fun s => (removals (trace s), autosavePath s))
    (destroy_locals env ;; ret 0).
Proof. frame. Qed.

(** However [main] ends, [removeRecursively] was called at most once,
    and then on the scratch path of this run, which is not empty: no
    other path, and never the empty path, is removed. *)
Theorem only_the_scratch_path_is_removed fuel (w : W) s' :
  final (main env cfg fuel (initial_state w)) = Some s' ->
  removals (trace s') = []
  \/ removals (trace s') = [autosavePath s']
     /\ empty (autosavePath s') = false.
Proof.
  unfold main. intros H.
  apply final_bind in H as [([] & s2 & Hstart & H)|H];
    [|apply startup_no_removal in H; by left].
  apply (f_equal final) in Hstart. apply startup_no_removal in Hstart.
  cbn in Hstart.
  apply final_bind in H as [([] & s3 & Hui & H)|H].
  - apply (f_equal final) in Hui. apply run_ui_no_removal in Hui.
    injection Hui as Hr3 Ha3. rewrite Hstart in Hr3.
    assert (Htear : exists s4,
              final (teardown env s3) = Some s4
              /\ removals (trace s') = removals (trace s4)
              /\ autosavePath s' = autosavePath s4).
    { apply final_bind in H as [([] & s4 & Htear & H)|H].
      - exists s4. rewrite Htear. split; [done|].
        apply closing_brace_no_removal in H. by injection H.
      - by exists s'. }
    destruct Htear as (s4 & Htear & Hr' & Ha').
    apply teardown_final in Htear as (Ha & [Hr|[Hr Hne]]).
    + left. by rewrite Hr', Hr, Hr3.
    + right. rewrite Hr', Ha', Hr, Hr3, Ha. by split.
  - apply run_ui_no_removal in H. injection H as Hr _. left.
    by rewrite Hr, Hstart.
Qed.

End Removal.

Lemma only_the_scratch_path_is_removed_witness :
  returned
    (main (SimFS.collaborators SimFS.posix) cfg_installed 1 (initial_state ∅))
    (fun _ s' =>
       removals (trace s') = ["/tmp/CardinalRemote.0001"]
       /\ (removals (trace s') = []
           \/ removals (trace s') = [autosavePath s']
              /\ empty (autosavePath s') = false)).
Proof.
  assert (Hr : (fun s => removals (trace s))
                 <$> final
                       (main (SimFS.collaborators SimFS.posix) cfg_installed 1
                          (initial_state ∅))
               = Some ["/tmp/CardinalRemote.0001"]) by (vm_compute; reflexivity).
  apply returned_intro; [vm_compute; eauto|]. intros c s' E.
  rewrite E in Hr. injection Hr as Hr. split; [exact Hr|].
  apply (only_the_scratch_path_is_removed
           (SimFS.collaborators SimFS.posix) cfg_installed 1 ∅ s').
  rewrite E. reflexivity.
Defined.

(** ** A whole run in the simulated file system *)


Section SimulatedRun.
Import SimFS.
Context (b : Behaviour) (cfg : BuildConfig).
Implicit Types s : State (gset string).






End SimulatedRun.

